(** * go-faxto: a shallow embedding of the fax.to client (faxto.go)

    The client is one Go file.  Every method of [Client] builds a URL from a
    template, performs one HTTP round trip, compares the status code with
    400 and, for most methods, decodes a JSON body.  The embedding keeps
    that shape:

    - the Go library functions the file calls ([strings.ReplaceAll],
      [fmt.Sprintf], [fmt.Errorf], [http.NewRequest], [json.Decoder.Decode])
      are modelled in modules named after their packages;
    - what lies outside the process (the remote server, the file system) is a
      [World]; what the Go runtime decides and this file does not (number and
      time parsing, URL validation, the JSON scanner) is a [Runtime];
    - every method is a computation in a state monad whose state holds the
      receiver [*c] and the history of the effects performed so far. *)

From Stdlib Require Import String Ascii ZArith List Bool Lia.
From Stdlib Require Import DecimalString DecimalPos DecimalZ.
From Stdlib Require Import Floats.PrimFloat.
Import ListNotations.

Local Open Scope string_scope.
Local Open Scope Z_scope.

Set Warnings "-register-all".

(* ===================================================================== *)
(** * Go values *)
(* ===================================================================== *)

(** Go's [float64] is IEEE 754 binary64, which is what Rocq's primitive
    floats are. *)
Definition float64 : Type := PrimFloat.float.

(** [uint64], [uint], [uint8] and [int] values are carried as [Z]; the bit
    width matters only where a JSON number is stored into one of them. *)
Definition uint64 : Type := Z.
Definition uint : Type := Z.
Definition uint8 : Type := Z.
Definition int : Type := Z.

(** A Go slice is either [nil] or backed by an array.  The two are told
    apart by [== nil] only; both have a length.  A slice that was cut short
    ([cut_slice]) has its elements, and behind them, in the same array, the
    elements it had before: they are not part of the slice, but a decoder
    that lengthens the slice again finds them there. *)
Inductive slice (A : Type) : Type :=
| nil_slice : slice A
| make_slice (elems : list A) : slice A
| cut_slice (elems behind : list A) : slice A.
Arguments nil_slice {A}.
Arguments make_slice {A} elems.
Arguments cut_slice {A} elems behind.

Definition elems {A} (s : slice A) : list A :=
  match s with
  | nil_slice => []
  | make_slice l => l
  | cut_slice l _ => l
  end.

(** What the array of a slice holds, from its first element on. *)
Definition held {A} (s : slice A) : list A :=
  match s with
  | nil_slice => []
  | make_slice l => l
  | cut_slice l behind => l ++ behind
  end.

(** The slice of the elements [l] over an array that holds [behind] after
    them. *)
Definition slice_over {A} (l behind : list A) : slice A :=
  match behind with
  | [] => make_slice l
  | _ :: _ => cut_slice l behind
  end.



(* ===================================================================== *)
(** * package strings *)
(* ===================================================================== *)

Module strings.

(** [strings.Contains(s, substr)]. *)
Fixpoint Contains (s substr : string) : bool :=
  prefix substr s
  || match s with
     | EmptyString => false
     | String _ s' => Contains s' substr
     end.

(** The scan of [strings.Replace(s, old, new, -1)] for a non-empty [old]:
    matches are taken leftmost first and do not overlap.  [skip] counts the
    bytes of the current match that are still to be passed over. *)
Fixpoint replace_from (skip : nat) (old new s : string) : string :=
  match s with
  | EmptyString => EmptyString
  | String c s' =>
      match skip with
      | S k => replace_from k old new s'
      | O =>
          if prefix old s
          then new ++ replace_from (String.length old - 1) old new s'
          else String c (replace_from O old new s')
      end
  end.

(** [strings.ReplaceAll(s, old, new)].  Both call sites of the package pass
    a non-empty literal for [old] ("$key$", "$action$").  For the empty
    pattern Go inserts [new] around every UTF-8 sequence; that case is not
    used here and the model leaves [s] as it is. *)
Definition ReplaceAll (s old new : string) : string :=
  match old with
  | EmptyString => s
  | String _ _ => replace_from O old new s
  end.

End strings.

(* ===================================================================== *)
(** * Errors *)
(* ===================================================================== *)

(** The values of Go's [error] interface that can reach a caller of this
    package.  The package itself only makes [errorString]s (through
    [fmt.Errorf] without [%w]); the others are handed over unchanged from
    the library call that produced them. *)
Inductive error : Type :=
| errorString (s : string)
| url_Error (Op URL cause : string)
| os_PathError (Op Path cause : string)
| io_EOF
| json_SyntaxError (msg : string)
| json_UnmarshalTypeError (Value Type_ : string)
| time_ParseError (Value : string).

(* ===================================================================== *)
(** * package fmt *)
(* ===================================================================== *)

Module fmt.

(** The operands this package passes to the formatting functions. *)
Inductive operand : Type :=
| Int (n : Z)
| Str (s : string).

(** The verb [%d] on an integer: decimal digits, with a minus sign for a
    negative number. *)
Definition decimal (n : Z) : string := NilZero.string_of_int (Z.to_int n).

(** [fmt.Sprintf] for the verbs the package uses, [%d] and [%s], each with
    an operand of its kind.  An operand that is missing is reported the way
    Go does; an operand of the wrong kind does not occur in this package
    and is marked without Go's type name. *)
Fixpoint Sprintf (format : string) (a : list operand) : string :=
  match format with
  | EmptyString => EmptyString
  | String "%" (String "d" rest) =>
      match a with
      | Int n :: a' => decimal n ++ Sprintf rest a'
      | Str _ :: a' => "%!d(string)" ++ Sprintf rest a'
      | [] => "%!d(MISSING)" ++ Sprintf rest []
      end
  | String "%" (String "s" rest) =>
      match a with
      | Str s :: a' => s ++ Sprintf rest a'
      | Int _ :: a' => "%!s(int)" ++ Sprintf rest a'
      | [] => "%!s(MISSING)" ++ Sprintf rest []
      end
  | String c rest => String c (Sprintf rest a)
  end.

(** [fmt.Errorf(format, a...)], without [%w]. *)
Definition Errorf (format : string) (a : list operand) : error :=
  errorString (Sprintf format a).

End fmt.

(** The names the specification gives to the two errors the package builds
    itself. *)
Definition HttpStatusError (code : Z) : error :=
  fmt.Errorf "expected status < 400, got %d" [fmt.Int code].

Definition RemoteStatusError (status : string) : error :=
  fmt.Errorf "expected status 'success', got '%s'" [fmt.Str status].

(* ===================================================================== *)
(** * package encoding/json *)
(* ===================================================================== *)

(** The syntax of a JSON value as the scanner of [encoding/json] delivers it:
    a number keeps its literal text (it is converted when it is stored), the
    members of an object keep their order and their duplicates. *)
Inductive JSON : Type :=
| JNull
| JBool (b : bool)
| JNumber (lit : string)
| JString (s : string)
| JArray (items : list JSON)
| JObject (members : list (string * JSON)).

(** What the Go runtime and its libraries decide and this package does not.
    - [parseStrictRFC3339]: [time.Time]'s reading of the content of a JSON
      string;
    - [ParseFloat]: [strconv.ParseFloat(s, 64)], [None] when it reports an
      error;
    - [foldName]: the case folding under which [encoding/json] matches an
      object key with a struct field when no field has exactly that name;
    - [readValue]: [json.Decoder]'s reading of the next JSON value of a
      stream, or the error it stops with ([io.EOF] on an empty stream, a
      syntax error, ...);
    - [url_Parse]: the error of [url.Parse] on a raw URL, [None] when it
      parses;
    - [uint_bits]: the size of [uint], 32 or 64. *)
Class Runtime : Type := {
  Time : Type;
  Time_zero : Time;
  parseStrictRFC3339 : string -> error + Time;
  ParseFloat : string -> option float64;
  foldName : string -> string;
  readValue : string -> error + JSON;
  url_Parse : string -> option error;
  uint_bits : Z
}.

Module strconv.

Definition digit (c : ascii) : option Z :=
  let n := Z.of_nat (nat_of_ascii c) in
  if (48 <=? n) && (n <=? 57) then Some (n - 48) else None.

Fixpoint digits (acc : Z) (s : string) : option Z :=
  match s with
  | EmptyString => Some acc
  | String c s' =>
      match digit c with
      | Some d => digits (10 * acc + d) s'
      | None => None
      end
  end.

(** [strconv.ParseUint(s, 10, 64)], [None] when it reports an error: the
    text has to be a non-empty run of decimal digits (no sign, no
    fraction, no exponent) whose value fits 64 bits. *)
Definition ParseUint (s : string) : option Z :=
  match s with
  | EmptyString => None
  | _ =>
      match digits 0 s with
      | Some n => if n <? 2 ^ 64 then Some n else None
      | None => None
      end
  end.

End strconv.

Module json.

(** The decoder's state is the first error it saved ([d.savedError]); an
    error returned by a step stops the decoding at once. *)
Definition D (A : Type) : Type := option error -> error + (A * option error).

Definition ret {A} (x : A) : D A := fun saved => inr (x, saved).

Definition bind {A B} (m : D A) (k : A -> D B) : D B :=
  fun saved =>
    match m saved with
    | inl err => inl err
    | inr (x, saved') => k x saved'
    end.

Definition fail {A} (err : error) : D A := fun _ => inl err.

(** [d.saveError(err)]: only the first one is kept. *)
Definition saveError (err : error) : D unit :=
  fun saved =>
    inr (tt, match saved with
             | None => Some err
             | Some _ => saved
             end).

(** The [Value] an [UnmarshalTypeError] reports for a JSON value that the
    target's kind cannot hold. *)
Definition describe (v : JSON) : string :=
  match v with
  | JNull => "null"
  | JBool _ => "bool"
  | JNumber _ => "number"
  | JString _ => "string"
  | JArray _ => "array"
  | JObject _ => "object"
  end.

(** A value of the wrong kind: the error is saved, the target keeps its
    value and the decoding goes on. *)
Definition mismatch {A} (v : JSON) (type_ : string) (cur : A) : D A :=
  bind (saveError (json_UnmarshalTypeError (describe v) type_))
       (fun _ => ret cur).

(** Storing into a [string]. [null] leaves the target as it is. *)
Definition into_string (v : JSON) (cur : string) : D string :=
  match v with
  | JNull => ret cur
  | JString s => ret s
  | _ => mismatch v "string" cur
  end.

(** Storing into a [float64]. *)
Definition into_float64 `{rt : Runtime} (v : JSON) (cur : float64) : D float64 :=
  match v with
  | JNull => ret cur
  | JNumber lit =>
      match ParseFloat lit with
      | Some n => ret n
      | None =>
          bind (saveError (json_UnmarshalTypeError ("number " ++ lit) "float64"))
               (fun _ => ret cur)
      end
  | _ => mismatch v "float64" cur
  end.

(** Storing into an unsigned integer of [bits] bits: [ParseUint] at 64
    bits, then the overflow test of the target's type. *)
Definition into_uint (bits : Z) (type_ : string) (v : JSON) (cur : Z) : D Z :=
  match v with
  | JNull => ret cur
  | JNumber lit =>
      match strconv.ParseUint lit with
      | Some n =>
          if n <? 2 ^ bits then ret n
          else bind (saveError (json_UnmarshalTypeError ("number " ++ lit) type_))
                    (fun _ => ret cur)
      | None =>
          bind (saveError (json_UnmarshalTypeError ("number " ++ lit) type_))
               (fun _ => ret cur)
      end
  | _ => mismatch v type_ cur
  end.

(** Storing into a [time.Time], which has its own [UnmarshalJSON]: it is
    called for every JSON value, and its error stops the decoding. *)
Definition into_Time `{rt : Runtime} (v : JSON) (cur : Time) : D Time :=
  match v with
  | JNull => ret cur
  | JString s =>
      match parseStrictRFC3339 s with
      | inr t => ret t
      | inl err => fail err
      end
  | _ => fail (errorString "Time.UnmarshalJSON: input is not a JSON string")
  end.

(** A struct type, for the decoder: the JSON name of each field with the
    way a value is stored into it. *)
Definition fields (T : Type) : Type := list (string * (JSON -> T -> D T)).


(** The field an object key selects: the one with exactly that name, or
    else the first one with the same folded name. *)
Definition byName `{rt : Runtime} {T} (fs : fields T) (key : string)
  : option (JSON -> T -> D T) :=
  match find (fun f => String.eqb key (fst f)) fs with
  | Some f => Some (snd f)
  | None =>
      match find (fun f => String.eqb (foldName key) (foldName (fst f))) fs with
      | Some f => Some (snd f)
      | None => None
      end
  end.

(** The members of an object are stored one after the other, in the order
    of the text; a key that selects no field is skipped. *)
Fixpoint members_into `{rt : Runtime} {T} (fs : fields T)
  (ms : list (string * JSON)) (cur : T) : D T :=
  match ms with
  | [] => ret cur
  | (key, v) :: ms' =>
      match byName fs key with
      | Some store => bind (store v cur) (members_into fs ms')
      | None => members_into fs ms' cur
      end
  end.

(** Storing into a struct. *)
Definition into_struct `{rt : Runtime} {T} (type_ : string) (fs : fields T)
  (v : JSON) (cur : T) : D T :=
  match v with
  | JNull => ret cur
  | JObject ms => members_into fs ms cur
  | _ => mismatch v type_ cur
  end.

(** The elements of an array, element number i decoded into what the
    array of the slice holds at i, and into a fresh element past that. *)
Fixpoint items_onto {T} (zero : T) (elem : JSON -> T -> D T)
  (items : list JSON) (onto : list T) : D (list T) :=
  match items with
  | [] => ret []
  | v :: items' =>
      bind (elem v (hd zero onto)) (fun x =>
      bind (items_onto zero elem items' (tl onto)) (fun xs =>
      ret (x :: xs)))
  end.

(** Storing into a slice.  [null] sets the slice to [nil].  An array is
    decoded element by element into the elements the slice has, the slice
    being lengthened over its array and past it as needed and cut to the
    length of the array at the end; the empty array gives a new empty
    slice, so that an array never leaves the slice [nil]. *)
Definition into_slice {T} (type_ : string) (zero : T)
  (elem : JSON -> T -> D T) (v : JSON) (cur : slice T) : D (slice T) :=
  match v with
  | JNull => ret nil_slice
  | JArray items =>
      bind (items_onto zero elem items (held cur)) (fun l =>
      ret (match items with
           | [] => make_slice []
           | _ :: _ => slice_over l (skipn (List.length items) (held cur))
           end))
  | _ => mismatch v type_ cur
  end.

(** [json.NewDecoder(r).Decode(&x)] on the bytes [body] that [r] delivers,
    with [x] holding [init]: the next value is read, stored into [x], and
    the error is the one that stopped the decoding or else the first one
    saved. *)
Definition Decode `{rt : Runtime} {T} (into : JSON -> T -> D T) (body : string)
  (init : T) : error + T :=
  match readValue body with
  | inl err => inl err
  | inr v =>
      match into v init None with
      | inl err => inl err
      | inr (_, Some err) => inl err
      | inr (x, None) => inr x
      end
  end.

End json.

(* ===================================================================== *)
(** * packages net/url and net/http *)
(* ===================================================================== *)

Module url.

(** [url.Values]: a map from a key to its values.  A composite literal
    has no key twice, so a list of distinct keys stands for it. *)
Definition Values : Type := list (string * list string).

Fixpoint insert (kv : string * list string) (l : Values) : Values :=
  match l with
  | [] => [kv]
  | kv' :: l' =>
      if String.leb (fst kv) (fst kv') then kv :: l else kv' :: insert kv l'
  end.

Definition sorted (v : Values) : Values := fold_right insert [] v.

Definition upperhex (n : nat) : ascii :=
  nth n (list_ascii_of_string "0123456789ABCDEF") "0"%char.

(** The bytes [url.QueryEscape] leaves as they are: letters, digits and
    "-", "_", ".", "~". *)
Definition unreserved (c : ascii) : bool :=
  let n := nat_of_ascii c in
  (((48 <=? n) && (n <=? 57)) || ((65 <=? n) && (n <=? 90))
   || ((97 <=? n) && (n <=? 122))
   || (n =? 45) || (n =? 95) || (n =? 46) || (n =? 126))%nat.

(** [url.QueryEscape(s)]: a space becomes "+", every other byte that is not
    unreserved becomes "%" and its two hexadecimal digits. *)
Fixpoint QueryEscape (s : string) : string :=
  match s with
  | EmptyString => EmptyString
  | String c s' =>
      let n := nat_of_ascii c in
      if (n =? 32)%nat then String "+" (QueryEscape s')
      else if unreserved c then String c (QueryEscape s')
      else String "%" (String (upperhex (n / 16)) (String (upperhex (n mod 16))
                                                     (QueryEscape s')))
  end.

(** [Values.Encode]: "k=v" pairs joined by "&", the keys in sorted order,
    keys and values escaped. *)
Definition Encode (v : Values) : string :=
  String.concat "&"
    (flat_map
       (fun kv => map (fun x => QueryEscape (fst kv) ++ "=" ++ QueryEscape x) (snd kv))
       (sorted v)).

End url.

Module http.

Definition MethodGet : string := "GET".
Definition MethodPost : string := "POST".
Definition MethodDelete : string := "DELETE".

(** [http.Header], for keys that are written in canonical form. *)
Definition Header : Type := list (string * list string).

Record Request : Type := {
  Method : string;
  URL : string;
  Header_ : Header;
  Body : option string
}.

(** A response as the methods of the package read it: the status code and
    the bytes its body delivers. *)
Record Response : Type := {
  StatusCode : Z;
  RespBody : string
}.

(** [http.Client], of which the package sets the timeout only (in
    nanoseconds, as [time.Duration] counts). *)
Record Client : Type := {
  Timeout : Z
}.

(** [http.NewRequest(method, url, body)], for the three method constants
    above: it fails when the URL does not parse. *)
Definition NewRequest `{rt : Runtime} (method url : string) (body : option string)
  : error + Request :=
  match url_Parse url with
  | Some err => inl err
  | None => inr {| Method := method; URL := url; Header_ := []; Body := body |}
  end.

(** [req.Header.Set(key, value)]. *)
Definition Header_Set (req : Request) (key value : string) : Request :=
  {| Method := Method req;
     URL := URL req;
     Header_ := (key, [value])
                :: filter (fun kv => negb (String.eqb (fst kv) key)) (Header_ req);
     Body := Body req |}.

End http.

Module time.
Definition Nanosecond : Z := 1.
Definition Second : Z := 1000000000 * Nanosecond.
End time.

(* ===================================================================== *)
(** * package faxto: the types *)
(* ===================================================================== *)

Definition rawBaseUrl : string := "https://fax.to/api/v2$action$?api_key=$key$".

Module balanceResponse.
Record t : Type := {
  Status : string;
  Balance : float64;
  SubscriptionCreditAllowance : float64
}.
Definition zero : t :=
  {| Status := ""; Balance := PrimFloat.zero; SubscriptionCreditAllowance := PrimFloat.zero |}.
Definition fields `{rt : Runtime} : json.fields t :=
  [ ("status", fun v x =>
       json.bind (json.into_string v (Status x)) (fun s =>
       json.ret {| Status := s; Balance := Balance x;
                   SubscriptionCreditAllowance := SubscriptionCreditAllowance x |}));
    ("balance", fun v x =>
       json.bind (json.into_float64 v (Balance x)) (fun n =>
       json.ret {| Status := Status x; Balance := n;
                   SubscriptionCreditAllowance := SubscriptionCreditAllowance x |}));
    ("sunbscription_credit_allowance", fun v x =>
       json.bind (json.into_float64 v (SubscriptionCreditAllowance x)) (fun n =>
       json.ret {| Status := Status x; Balance := Balance x;
                   SubscriptionCreditAllowance := n |})) ].
Definition store `{rt : Runtime} : JSON -> t -> json.D t :=
  json.into_struct "faxto.balanceResponse" fields.
End balanceResponse.

Module faxCostResponse.
Record t : Type := {
  Status : string;
  Cost : float64
}.
Definition zero : t := {| Status := ""; Cost := PrimFloat.zero |}.
Definition fields `{rt : Runtime} : json.fields t :=
  [ ("status", fun v x =>
       json.bind (json.into_string v (Status x)) (fun s =>
       json.ret {| Status := s; Cost := Cost x |}));
    ("cost", fun v x =>
       json.bind (json.into_float64 v (Cost x)) (fun n =>
       json.ret {| Status := Status x; Cost := n |})) ].
Definition store `{rt : Runtime} : JSON -> t -> json.D t :=
  json.into_struct "faxto.faxCostResponse" fields.
End faxCostResponse.

Module faxStatusResponse.
Record t : Type := {
  Status : string;
  Message : string;
  Balance : float64
}.
Definition zero : t := {| Status := ""; Message := ""; Balance := PrimFloat.zero |}.
Definition fields `{rt : Runtime} : json.fields t :=
  [ ("status", fun v x =>
       json.bind (json.into_string v (Status x)) (fun s =>
       json.ret {| Status := s; Message := Message x; Balance := Balance x |}));
    ("message", fun v x =>
       json.bind (json.into_string v (Message x)) (fun s =>
       json.ret {| Status := Status x; Message := s; Balance := Balance x |}));
    ("user_cash_balance", fun v x =>
       json.bind (json.into_float64 v (Balance x)) (fun n =>
       json.ret {| Status := Status x; Message := Message x; Balance := n |})) ].
Definition store `{rt : Runtime} : JSON -> t -> json.D t :=
  json.into_struct "faxto.faxStatusResponse" fields.
End faxStatusResponse.

Module FaxHistoryEntry.

(** The anonymous struct of the field [Created]. *)
Module Created.
Record t `{rt : Runtime} : Type := {
  Date : Time;
  DateTimeZone : uint8;
  Timezone : string
}.
Definition zero `{rt : Runtime} : t :=
  {| Date := Time_zero; DateTimeZone := 0; Timezone := "" |}.
Definition fields `{rt : Runtime} : json.fields t :=
  [ ("date", fun v x =>
       json.bind (json.into_Time v (Date x)) (fun d =>
       json.ret {| Date := d; DateTimeZone := DateTimeZone x; Timezone := Timezone x |}));
    ("datetime_zone", fun v x =>
       json.bind (json.into_uint 8 "uint8" v (DateTimeZone x)) (fun n =>
       json.ret {| Date := Date x; DateTimeZone := n; Timezone := Timezone x |}));
    ("timezone", fun v x =>
       json.bind (json.into_string v (Timezone x)) (fun s =>
       json.ret {| Date := Date x; DateTimeZone := DateTimeZone x; Timezone := s |})) ].
(** The name Go's reflection gives the type, tags included. *)
Definition type_name : string :=
  let dq := String (ascii_of_nat 34) EmptyString in
  let tag (name : string) := dq ++ "json:\" ++ dq ++ name ++ "\" ++ dq ++ dq in
  "struct { Date time.Time " ++ tag "date"
  ++ "; DateTimeZone uint8 " ++ tag "datetime_zone"
  ++ "; Timezone string " ++ tag "timezone" ++ " }".
Definition store `{rt : Runtime} : JSON -> t -> json.D t :=
  json.into_struct type_name fields.
End Created.

Record t `{rt : Runtime} : Type := {
  Id : uint64;
  Created_ : Created.t;
  DocumentId : uint64;
  Document : string;
  Recipient : string;
  Status : string
}.
Definition zero `{rt : Runtime} : t :=
  {| Id := 0; Created_ := Created.zero; DocumentId := 0;
     Document := ""; Recipient := ""; Status := "" |}.
Definition fields `{rt : Runtime} : json.fields t :=
  [ ("id", fun v x =>
       json.bind (json.into_uint 64 "uint64" v (Id x)) (fun n =>
       json.ret {| Id := n; Created_ := Created_ x; DocumentId := DocumentId x;
                   Document := Document x; Recipient := Recipient x; Status := Status x |}));
    ("created", fun v x =>
       json.bind (Created.store v (Created_ x)) (fun c =>
       json.ret {| Id := Id x; Created_ := c; DocumentId := DocumentId x;
                   Document := Document x; Recipient := Recipient x; Status := Status x |}));
    ("document_id", fun v x =>
       json.bind (json.into_uint 64 "uint64" v (DocumentId x)) (fun n =>
       json.ret {| Id := Id x; Created_ := Created_ x; DocumentId := n;
                   Document := Document x; Recipient := Recipient x; Status := Status x |}));
    ("document", fun v x =>
       json.bind (json.into_string v (Document x)) (fun s =>
       json.ret {| Id := Id x; Created_ := Created_ x; DocumentId := DocumentId x;
                   Document := s; Recipient := Recipient x; Status := Status x |}));
    ("recipient", fun v x =>
       json.bind (json.into_string v (Recipient x)) (fun s =>
       json.ret {| Id := Id x; Created_ := Created_ x; DocumentId := DocumentId x;
                   Document := Document x; Recipient := s; Status := Status x |}));
    ("status", fun v x =>
       json.bind (json.into_string v (Status x)) (fun s =>
       json.ret {| Id := Id x; Created_ := Created_ x; DocumentId := DocumentId x;
                   Document := Document x; Recipient := Recipient x; Status := s |})) ].
Definition store `{rt : Runtime} : JSON -> t -> json.D t :=
  json.into_struct "faxto.FaxHistoryEntry" fields.
End FaxHistoryEntry.

Module faxHistoryResponse.
Record t `{rt : Runtime} : Type := {
  Status : string;
  History : slice FaxHistoryEntry.t
}.
Definition zero `{rt : Runtime} : t := {| Status := ""; History := nil_slice |}.
Definition fields `{rt : Runtime} : json.fields t :=
  [ ("status", fun v x =>
       json.bind (json.into_string v (Status x)) (fun s =>
       json.ret {| Status := s; History := History x |}));
    ("history", fun v x =>
       json.bind (json.into_slice "[]faxto.FaxHistoryEntry" FaxHistoryEntry.zero
                    FaxHistoryEntry.store v (History x)) (fun h =>
       json.ret {| Status := Status x; History := h |})) ].
Definition store `{rt : Runtime} : JSON -> t -> json.D t :=
  json.into_struct "faxto.faxHistoryResponse" fields.
End faxHistoryResponse.

Module fileUploadResponse.
Record t : Type := {
  Status : string;
  DocumentId : uint64;
  TotalPages : uint64
}.
Definition zero : t := {| Status := ""; DocumentId := 0; TotalPages := 0 |}.
Definition fields `{rt : Runtime} : json.fields t :=
  [ ("status", fun v x =>
       json.bind (json.into_string v (Status x)) (fun s =>
       json.ret {| Status := s; DocumentId := DocumentId x; TotalPages := TotalPages x |}));
    ("document_id", fun v x =>
       json.bind (json.into_uint 64 "uint64" v (DocumentId x)) (fun n =>
       json.ret {| Status := Status x; DocumentId := n; TotalPages := TotalPages x |}));
    ("total_pages", fun v x =>
       json.bind (json.into_uint 64 "uint64" v (TotalPages x)) (fun n =>
       json.ret {| Status := Status x; DocumentId := DocumentId x; TotalPages := n |})) ].
Definition store `{rt : Runtime} : JSON -> t -> json.D t :=
  json.into_struct "faxto.fileUploadResponse" fields.
End fileUploadResponse.

Module File.
Record t `{rt : Runtime} : Type := {
  Id : uint64;
  Filename : string;
  Pages : uint;
  Size : uint64;
  Uploaded : Time
}.
Definition zero `{rt : Runtime} : t :=
  {| Id := 0; Filename := ""; Pages := 0; Size := 0; Uploaded := Time_zero |}.
Definition fields `{rt : Runtime} : json.fields t :=
  [ ("id", fun v x =>
       json.bind (json.into_uint 64 "uint64" v (Id x)) (fun n =>
       json.ret {| Id := n; Filename := Filename x; Pages := Pages x;
                   Size := Size x; Uploaded := Uploaded x |}));
    ("filename", fun v x =>
       json.bind (json.into_string v (Filename x)) (fun s =>
       json.ret {| Id := Id x; Filename := s; Pages := Pages x;
                   Size := Size x; Uploaded := Uploaded x |}));
    ("pages", fun v x =>
       json.bind (json.into_uint uint_bits "uint" v (Pages x)) (fun n =>
       json.ret {| Id := Id x; Filename := Filename x; Pages := n;
                   Size := Size x; Uploaded := Uploaded x |}));
    ("size", fun v x =>
       json.bind (json.into_uint 64 "uint64" v (Size x)) (fun n =>
       json.ret {| Id := Id x; Filename := Filename x; Pages := Pages x;
                   Size := n; Uploaded := Uploaded x |}));
    ("uploaded", fun v x =>
       json.bind (json.into_Time v (Uploaded x)) (fun u =>
       json.ret {| Id := Id x; Filename := Filename x; Pages := Pages x;
                   Size := Size x; Uploaded := u |})) ].
Definition store `{rt : Runtime} : JSON -> t -> json.D t :=
  json.into_struct "faxto.File" fields.
End File.

(** The field [httpClient] is a pointer that the package allocates in
    [NewClient] and never shares or reassigns; it is carried as the struct
    it points to. *)
Record Client : Type := {
  baseUrl : string;
  httpClient : http.Client
}.

Definition NewClient (apiKey : string) : Client :=
  {| baseUrl := strings.ReplaceAll rawBaseUrl "$key$" apiKey;
     httpClient := {| http.Timeout := 10 * time.Second |} |}.

(* ===================================================================== *)
(** * Effects *)
(* ===================================================================== *)

(** What a method does to the outside, in the order it does it, with the
    answer it got. *)
Inductive Event : Type :=
| ReadFile (filename : string) (result : error + string)
| HttpDo (hc : http.Client) (req : http.Request) (result : error + http.Response)
| ReadBody (resp : http.Response)
| CloseBody (resp : http.Response).

(** The remote server with the network in front of it, and the file system.
    Their answers may depend on everything that happened before. *)
Record World : Type := {
  server : list Event -> http.Client -> http.Request -> error + http.Response;
  disk : list Event -> string -> error + string
}.

(** The state a method runs in: the struct its receiver points to, and the
    history of the effects so far. *)
Record State : Type := {
  receiver : Client;
  history : list Event
}.

Definition M (A : Type) : Type := World -> State -> A * State.

Definition ret {A} (x : A) : M A := fun _ st => (x, st).

Definition bind {A B} (m : M A) (k : A -> M B) : M B :=
  fun w st => k (fst (m w st)) w (snd (m w st)).

Declare Scope go_scope.
Delimit Scope go_scope with go.
Notation "x <- m ;; k" := (bind m (fun x => k))
  (at level 61, m at next level, right associativity) : go_scope.
Notation "m ;;; k" := (bind m (fun _ => k))
  (at level 61, right associativity) : go_scope.
Local Open Scope go_scope.

(** Reading [*c]. *)
Definition self : M Client := fun _ st => (receiver st, st).

Definition record (e : Event) (st : State) : State :=
  {| receiver := receiver st; history := history st ++ [e] |}.

(** [ioutil.ReadFile(filename)]. *)
Definition ioutil_ReadFile (filename : string) : M (error + string) :=
  fun w st =>
    let r := disk w (history st) filename in
    (r, record (ReadFile filename r) st).

(** [hc.Do(req)]. *)
Definition Do (hc : http.Client) (req : http.Request) : M (error + http.Response) :=
  fun w st =>
    let r := server w (history st) hc req in
    (r, record (HttpDo hc req r) st).

(** [hc.PostForm(url, data)]: a POST request whose body is the encoded
    form. *)
Definition PostForm `{rt : Runtime} (hc : http.Client) (u : string) (data : url.Values)
  : M (error + http.Response) :=
  match http.NewRequest http.MethodPost u (Some (url.Encode data)) with
  | inl err => ret (inl err)
  | inr req =>
      Do hc (http.Header_Set req "Content-Type" "application/x-www-form-urlencoded")
  end.

(** [resp.Body.Close()]. *)
Definition Close (resp : http.Response) : M unit :=
  fun _ st => (tt, record (CloseBody resp) st).

(** [defer cleanup]: the rest of the function runs, then the deferred
    call, then the function returns. *)
Definition defer {A} (cleanup : M unit) (rest : M A) : M A :=
  x <- rest ;; cleanup ;;; ret x.

(** [json.NewDecoder(resp.Body).Decode(&x)], [x] holding [init]. *)
Definition Decode `{rt : Runtime} {T} (into : JSON -> T -> json.D T)
  (resp : http.Response) (init : T) : M (error + T) :=
  fun _ st => (json.Decode into (http.RespBody resp) init, record (ReadBody resp) st).

(* ===================================================================== *)
(** * package faxto: the methods of [Client] *)
(* ===================================================================== *)

(** A method returns what the Go function returns: the error alone, or a
    value and the error, [None] standing for a [nil] error. *)

Section Methods.

Context `{rt : Runtime}.

Definition SendFax (number : string) (fileId : uint64) : M (option error) :=
  c <- self ;;
  let data : url.Values :=
    [ ("fax_number", [number]);
      ("document_id", [fmt.Sprintf "%d" [fmt.Int fileId]]) ] in
  r <- PostForm (httpClient c) (strings.ReplaceAll (baseUrl c) "$action$" "/fax") data ;;
  match r with
  | inl err => ret (Some err)
  | inr resp =>
      if 400 <=? http.StatusCode resp
      then ret (Some (fmt.Errorf "expected status < 400, got %d"
                        [fmt.Int (http.StatusCode resp)]))
      else ret None
  end.

Definition GetBalance : M (float64 * option error) :=
  c <- self ;;
  match http.NewRequest http.MethodGet
          (strings.ReplaceAll (baseUrl c) "$action$" "/balance") None with
  | inl err => ret (PrimFloat.zero, Some err)
  | inr req =>
      let req := http.Header_Set req "Content-Type" "application/json" in
      r <- Do (httpClient c) req ;;
      match r with
      | inl err => ret (PrimFloat.zero, Some err)
      | inr resp =>
          defer (Close resp)
            (if 400 <=? http.StatusCode resp
             then ret (PrimFloat.zero,
                       Some (fmt.Errorf "expected status < 400, got %d"
                               [fmt.Int (http.StatusCode resp)]))
             else
               d <- Decode balanceResponse.store resp balanceResponse.zero ;;
               match d with
               | inl err => ret (PrimFloat.zero, Some err)
               | inr b =>
                   if negb (String.eqb (balanceResponse.Status b) "success")
                   then ret (PrimFloat.zero,
                             Some (fmt.Errorf "expected status 'success', got '%s'"
                                     [fmt.Str (balanceResponse.Status b)]))
                   else ret (balanceResponse.Balance b, None)
               end)
      end
  end.

Definition GetFaxCost (number : string) (docId : uint64) : M (float64 * option error) :=
  c <- self ;;
  match http.NewRequest http.MethodGet
          (strings.ReplaceAll (baseUrl c) "$action$"
             (fmt.Sprintf "/fax/%d/costs" [fmt.Int docId])
           ++ "&fax_number=" ++ number) None with
  | inl err => ret (PrimFloat.zero, Some err)
  | inr req =>
      let req := http.Header_Set req "Accept" "application/json" in
      r <- Do (httpClient c) req ;;
      match r with
      | inl err => ret (PrimFloat.zero, Some err)
      | inr resp =>
          defer (Close resp)
            (if 400 <=? http.StatusCode resp
             then ret (PrimFloat.zero,
                       Some (fmt.Errorf "expected status < 400, got %d"
                               [fmt.Int (http.StatusCode resp)]))
             else
               d <- Decode faxCostResponse.store resp faxCostResponse.zero ;;
               match d with
               | inl err => ret (PrimFloat.zero, Some err)
               | inr cost => ret (faxCostResponse.Cost cost, None)
               end)
      end
  end.

Definition GetFaxStatus (faxJobId : int) : M (string * option error) :=
  c <- self ;;
  match http.NewRequest http.MethodGet
          (strings.ReplaceAll (baseUrl c) "$action$"
             (fmt.Sprintf "/fax/%d/status" [fmt.Int faxJobId])) None with
  | inl err => ret ("", Some err)
  | inr req =>
      let req := http.Header_Set req "Accept" "application/json" in
      r <- Do (httpClient c) req ;;
      match r with
      | inl err => ret ("", Some err)
      | inr resp =>
          defer (Close resp)
            (if 400 <=? http.StatusCode resp
             then ret ("",
                       Some (fmt.Errorf "expected status < 400, got %d"
                               [fmt.Int (http.StatusCode resp)]))
             else
               d <- Decode faxStatusResponse.store resp faxStatusResponse.zero ;;
               match d with
               | inl err => ret ("", Some err)
               | inr fs => ret (faxStatusResponse.Status fs, None)
               end)
      end
  end.

Definition GetFaxHistory : M (slice FaxHistoryEntry.t * option error) :=
  c <- self ;;
  match http.NewRequest http.MethodGet
          (strings.ReplaceAll (baseUrl c) "$action$" "/fax-history") None with
  | inl err => ret (nil_slice, Some err)
  | inr req =>
      let req := http.Header_Set req "Accept" "application/json" in
      r <- Do (httpClient c) req ;;
      match r with
      | inl err => ret (nil_slice, Some err)
      | inr resp =>
          defer (Close resp)
            (if 400 <=? http.StatusCode resp
             then ret (nil_slice,
                       Some (fmt.Errorf "expected status < 400, got %d"
                               [fmt.Int (http.StatusCode resp)]))
             else
               d <- Decode faxHistoryResponse.store resp faxHistoryResponse.zero ;;
               match d with
               | inl err => ret (nil_slice, Some err)
               | inr fh =>
                   if negb (String.eqb (faxHistoryResponse.Status fh) "success")
                   then ret (nil_slice,
                             Some (fmt.Errorf "expected status 'success', got '%s'"
                                     [fmt.Str (faxHistoryResponse.Status fh)]))
                   else ret (faxHistoryResponse.History fh, None)
               end)
      end
  end.

Definition UploadFile (file : string) : M (uint64 * option error) :=
  f <- ioutil_ReadFile file ;;
  match f with
  | inl err => ret (0, Some err)
  | inr content =>
      c <- self ;;
      match http.NewRequest http.MethodPost
              (strings.ReplaceAll (baseUrl c) "$action$" "/files") (Some content) with
      | inl err => ret (0, Some err)
      | inr req =>
          r <- Do (httpClient c) req ;;
          match r with
          | inl err => ret (0, Some err)
          | inr resp =>
              defer (Close resp)
                (if 400 <=? http.StatusCode resp
                 then ret (0,
                           Some (fmt.Errorf "expected status < 400, got %d"
                                   [fmt.Int (http.StatusCode resp)]))
                 else
                   d <- Decode fileUploadResponse.store resp fileUploadResponse.zero ;;
                   match d with
                   | inl err => ret (0, Some err)
                   | inr fu =>
                       if negb (String.eqb (fileUploadResponse.Status fu) "success")
                       then ret (0,
                                 Some (fmt.Errorf "expected status 'success', got '%s'"
                                         [fmt.Str (fileUploadResponse.Status fu)]))
                       else ret (fileUploadResponse.DocumentId fu, None)
                   end)
          end
      end
  end.

Definition GetFiles : M (slice File.t * option error) :=
  c <- self ;;
  match http.NewRequest http.MethodGet
          (strings.ReplaceAll (baseUrl c) "$action$" "/files") None with
  | inl err => ret (nil_slice, Some err)
  | inr req =>
      let req := http.Header_Set req "Accept" "application/json" in
      r <- Do (httpClient c) req ;;
      match r with
      | inl err => ret (nil_slice, Some err)
      | inr resp =>
          defer (Close resp)
            (if 400 <=? http.StatusCode resp
             then ret (nil_slice,
                       Some (fmt.Errorf "expected status < 400, got %d"
                               [fmt.Int (http.StatusCode resp)]))
             else
               let files : slice File.t := make_slice [] in
               d <- Decode (json.into_slice "[]faxto.File" File.zero File.store)
                      resp files ;;
               match d with
               | inl err => ret (nil_slice, Some err)
               | inr files => ret (files, None)
               end)
      end
  end.

Definition DeleteFile (fileId : uint64) : M (option error) :=
  c <- self ;;
  match http.NewRequest http.MethodDelete
          (strings.ReplaceAll (baseUrl c) "$action$"
             (fmt.Sprintf "/files/%d" [fmt.Int fileId])) None with
  | inl err => ret (Some err)
  | inr req =>
      let req := http.Header_Set req "Accept" "application/json" in
      r <- Do (httpClient c) req ;;
      match r with
      | inl err => ret (Some err)
      | inr resp =>
          defer (Close resp)
            (if 400 <=? http.StatusCode resp
             then ret (Some (fmt.Errorf "expected status < 400, got %d"
                               [fmt.Int (http.StatusCode resp)]))
             else ret None)
      end
  end.

End Methods.

(* ===================================================================== *)
(** * The calls of the package, taken together *)
(* ===================================================================== *)

(** A call of one of the eight methods, with its arguments. *)
Inductive Call : Type :=
| CallSendFax (number : string) (fileId : uint64)
| CallGetBalance
| CallGetFaxCost (number : string) (docId : uint64)
| CallGetFaxStatus (faxJobId : int)
| CallGetFaxHistory
| CallUploadFile (file : string)
| CallGetFiles
| CallDeleteFile (fileId : uint64).

(** What a call returns besides the error. *)
Inductive Value `{rt : Runtime} : Type :=
| Nothing
| Float (x : float64)
| Text (s : string)
| Ident (n : uint64)
| History (h : slice FaxHistoryEntry.t)
| Files (l : slice File.t).

Section Calls.

Context `{rt : Runtime}.

Definition returning {A} (inj : A -> Value) (m : M (A * option error))
  : M (Value * option error) :=
  x <- m ;; ret (inj (fst x), snd x).

Definition returning_error (m : M (option error)) : M (Value * option error) :=
  e <- m ;; ret (Nothing, e).

Definition call (op : Call) : M (Value * option error) :=
  match op with
  | CallSendFax number fileId => returning_error (SendFax number fileId)
  | CallGetBalance => returning Float GetBalance
  | CallGetFaxCost number docId => returning Float (GetFaxCost number docId)
  | CallGetFaxStatus faxJobId => returning Text (GetFaxStatus faxJobId)
  | CallGetFaxHistory => returning History GetFaxHistory
  | CallUploadFile file => returning Ident (UploadFile file)
  | CallGetFiles => returning Files GetFiles
  | CallDeleteFile fileId => returning_error (DeleteFile fileId)
  end.

(** The value each method returns next to an error. *)
Definition zero_value (op : Call) : Value :=
  match op with
  | CallSendFax _ _ | CallDeleteFile _ => Nothing
  | CallGetBalance | CallGetFaxCost _ _ => Float PrimFloat.zero
  | CallGetFaxStatus _ => Text ""
  | CallGetFaxHistory => History nil_slice
  | CallUploadFile _ => Ident 0
  | CallGetFiles => Files nil_slice
  end.

(** The events a computation adds to the history. *)
Definition performed {A} (m : M A) (w : World) (st : State) : list Event :=
  skipn (List.length (history st)) (history (snd (m w st))).

(** The same world, the body of every response replaced. *)
Definition with_body (f : http.Response -> string) (w : World) : World :=
  {| server := fun h hc req =>
       match server w h hc req with
       | inl err => inl err
       | inr resp =>
           inr {| http.StatusCode := http.StatusCode resp; http.RespBody := f resp |}
       end;
     disk := disk w |}.

(** The requests among some events, and their URLs. *)
Definition requests (evs : list Event) : list http.Request :=
  flat_map (fun e => match e with
                     | HttpDo _ req _ => [req]
                     | _ => []
                     end) evs.

Definition urls (evs : list Event) : list string := map http.URL (requests evs).

(** The action segment of each call, and what [GetFaxCost] appends to its
    URL. *)
Definition action (op : Call) : string :=
  match op with
  | CallSendFax _ _ => "/fax"
  | CallGetBalance => "/balance"
  | CallGetFaxCost _ docId => fmt.Sprintf "/fax/%d/costs" [fmt.Int docId]
  | CallGetFaxStatus faxJobId => fmt.Sprintf "/fax/%d/status" [fmt.Int faxJobId]
  | CallGetFaxHistory => "/fax-history"
  | CallUploadFile _ => "/files"
  | CallGetFiles => "/files"
  | CallDeleteFile fileId => fmt.Sprintf "/files/%d" [fmt.Int fileId]
  end.

Definition appended (op : Call) : string :=
  match op with
  | CallGetFaxCost number _ => "&fax_number=" ++ number
  | _ => ""
  end.

(** The URL a call asks for, when the key does not hold the action
    placeholder. *)
Definition target (op : Call) (apiKey : string) : string :=
  "https://fax.to/api/v2" ++ action op ++ "?api_key=" ++ apiKey ++ appended op.

(** Calls one after the other on the same receiver. *)
Fixpoint call_all (ops : list Call) : M (list (Value * option error)) :=
  match ops with
  | [] => ret []
  | op :: ops' =>
      r <- call op ;;
      rs <- call_all ops' ;;
      ret (r :: rs)
  end.

End Calls.

(* ===================================================================== *)
(** * A runtime and worlds to compute with *)
(* ===================================================================== *)

Module sample.

(** The double quote, and a quoted text. *)
Definition dq : string := String (ascii_of_nat 34) EmptyString.
Definition q (s : string) : string := dq ++ s ++ dq.

Definition lower (c : ascii) : ascii :=
  let n := nat_of_ascii c in
  if ((65 <=? n) && (n <=? 90))%nat then ascii_of_nat (n + 32) else c.

Fixpoint fold (s : string) : string :=
  match s with
  | EmptyString => EmptyString
  | String c s' => String (lower c) (fold s')
  end.

Fixpoint has_control (s : string) : bool :=
  match s with
  | EmptyString => false
  | String c s' =>
      let n := nat_of_ascii c in
      ((n <? 32) || (n =? 127))%nat || has_control s'
  end.

Fixpoint lookup {A} (key : string) (table : list (string * A)) : option A :=
  match table with
  | [] => None
  | (k, x) :: table' => if String.eqb key k then Some x else lookup key table'
  end.

(** The bodies of the examples, as texts and as the values a JSON scanner
    reads from them. *)
Definition balance_success : string :=
  "{" ++ q "status" ++ ":" ++ q "success" ++ "," ++ q "balance" ++ ":12.5,"
      ++ q "subscription_credit_allowance" ++ ":0}".
Definition status_error : string :=
  "{" ++ q "status" ++ ":" ++ q "error" ++ "}".
Definition cost_error : string :=
  "{" ++ q "status" ++ ":" ++ q "error" ++ "," ++ q "cost" ++ ":0.25}".
Definition history_empty : string :=
  "{" ++ q "status" ++ ":" ++ q "success" ++ "," ++ q "history" ++ ":[]}".
Definition history_two : string :=
  "{" ++ q "status" ++ ":" ++ q "success" ++ "," ++ q "history" ++ ":[{"
      ++ q "id" ++ ":9," ++ q "recipient" ++ ":" ++ q "+4930123" ++ "},{"
      ++ q "id" ++ ":4," ++ q "status" ++ ":" ++ q "failed" ++ "}]}".
Definition upload_success : string :=
  "{" ++ q "status" ++ ":" ++ q "success" ++ "," ++ q "document_id" ++ ":42,"
      ++ q "total_pages" ++ ":0}".
Definition files_three : string :=
  "[{" ++ q "id" ++ ":3," ++ q "filename" ++ ":" ++ q "c.pdf" ++ "},{"
       ++ q "id" ++ ":1," ++ q "filename" ++ ":" ++ q "a.pdf" ++ "},{"
       ++ q "id" ++ ":2," ++ q "filename" ++ ":" ++ q "b.pdf" ++ ","
       ++ q "pages" ++ ":7}]".
Definition json_null : string := "null".
Definition not_json : string := "<html>Internal Server Error</html>".

Definition history_two_items : list JSON :=
  [ JObject [("id", JNumber "9"); ("recipient", JString "+4930123")];
    JObject [("id", JNumber "4"); ("status", JString "failed")] ].

Definition files_three_items : list JSON :=
  [ JObject [("id", JNumber "3"); ("filename", JString "c.pdf")];
    JObject [("id", JNumber "1"); ("filename", JString "a.pdf")];
    JObject [("id", JNumber "2"); ("filename", JString "b.pdf");
             ("pages", JNumber "7")] ].

Definition texts : list (string * JSON) :=
  [ (balance_success,
     JObject [("status", JString "success"); ("balance", JNumber "12.5");
              ("subscription_credit_allowance", JNumber "0")]);
    (status_error, JObject [("status", JString "error")]);
    (cost_error, JObject [("status", JString "error"); ("cost", JNumber "0.25")]);
    (history_empty, JObject [("status", JString "success"); ("history", JArray [])]);
    (history_two,
     JObject [("status", JString "success"); ("history", JArray history_two_items)]);
    (upload_success,
     JObject [("status", JString "success"); ("document_id", JNumber "42");
              ("total_pages", JNumber "0")]);
    (files_three, JArray files_three_items);
    (json_null, JNull) ].

Definition floats : list (string * float64) :=
  [ ("12.5", 12.5%float); ("0.25", 0.25%float); ("0", 0%float) ].

(** A runtime that reads the texts above, takes a time as the text it is
    written with, folds ASCII letters and refuses a URL with a control
    character. *)
Definition runtime : Runtime :=
  {| Time := string;
     Time_zero := "0001-01-01T00:00:00Z";
     parseStrictRFC3339 := fun s =>
       if (String.length s <? 20)%nat then inl (time_ParseError s) else inr s;
     ParseFloat := fun lit => lookup lit floats;
     foldName := fold;
     readValue := fun body =>
       match lookup body texts with
       | Some v => inr v
       | None =>
           match body with
           | EmptyString => inl io_EOF
           | _ => inl (json_SyntaxError "invalid character looking for beginning of value")
           end
       end;
     url_Parse := fun u =>
       if has_control u
       then Some (url_Error "parse" u "net/url: invalid control character in URL")
       else None;
     uint_bits := 64 |}.

(** A server that gives the same answer to every request, and a disk with
    one empty file. *)
Definition answering (code : Z) (body : string) : World :=
  {| server := fun _ _ _ => inr {| http.StatusCode := code; http.RespBody := body |};
     disk := fun _ name =>
       if String.eqb name "empty.pdf" then inr ""
       else inl (os_PathError "open" name "no such file or directory") |}.

(** A client that has made no call yet. *)
Definition fresh (apiKey : string) : State :=
  {| receiver := NewClient apiKey; history := [] |}.

End sample.

(* ===================================================================== *)
(** * The requests and the errors of the calls *)
(* ===================================================================== *)

Section Requests.

Context `{rt : Runtime}.

(** The raw URL each method hands to [http.NewRequest] (to [PostForm] for
    [SendFax]), as the source writes it. *)
Definition raw_url (op : Call) (c : Client) : string :=
  match op with
  | CallGetFaxCost number _ =>
      strings.ReplaceAll (baseUrl c) "$action$" (action op) ++ "&fax_number=" ++ number
  | _ => strings.ReplaceAll (baseUrl c) "$action$" (action op)
  end.

(** The method constant of each call. *)
Definition method_of (op : Call) : string :=
  match op with
  | CallSendFax _ _ | CallUploadFile _ => http.MethodPost
  | CallDeleteFile _ => http.MethodDelete
  | _ => http.MethodGet
  end.

(** The header of each call's request. *)
Definition header_of (op : Call) : http.Header :=
  match op with
  | CallSendFax _ _ => [("Content-Type", ["application/x-www-form-urlencoded"])]
  | CallGetBalance => [("Content-Type", ["application/json"])]
  | CallUploadFile _ => []
  | _ => [("Accept", ["application/json"])]
  end.

(** The body of each call's request: the form for [SendFax], the content of
    the file for [UploadFile] once it has been read, none for the others. *)
Definition body_of (op : Call) (w : World) (st : State) : option string :=
  match op with
  | CallSendFax number fileId =>
      Some (url.Encode [ ("fax_number", [number]);
                         ("document_id", [fmt.Sprintf "%d" [fmt.Int fileId]]) ])
  | CallUploadFile file =>
      match disk w (history st) file with
      | inr content => Some content
      | inl _ => None
      end
  | _ => None
  end.

(** The request a call hands to the HTTP client. *)
Definition request_of (op : Call) (w : World) (st : State) : http.Request :=
  {| http.Method := method_of op;
     http.URL := raw_url op (receiver st);
     http.Header_ := header_of op;
     http.Body := body_of op w st |}.

(** What has happened when the call hands its request over: for
    [UploadFile], the file has been read. *)
Definition history_at_send (op : Call) (w : World) (st : State) : list Event :=
  match op with
  | CallUploadFile file => history st ++ [ReadFile file (disk w (history st) file)]
  | _ => history st
  end.

(** The answer of the world to the request of a call. *)
Definition answer (op : Call) (w : World) (st : State) : error + http.Response :=
  server w (history_at_send op w st) (httpClient (receiver st)) (request_of op w st).

(** What it takes for a call to hand a request over: its URL parses and,
    for [UploadFile], the file can be read. *)
Definition reaches_server (op : Call) (w : World) (st : State) : Prop :=
  url_Parse (raw_url op (receiver st)) = None
  /\ match op with
     | CallUploadFile file => exists content, disk w (history st) file = inr content
     | _ => True
     end.






(** The calls that return a payload field of an envelope: the balance, the
    cost, the history, the document id. *)
Definition returns_payload (op : Call) : bool :=
  match op with
  | CallGetBalance | CallGetFaxCost _ _ | CallGetFaxHistory | CallUploadFile _ => true
  | _ => false
  end.

(** A key that selects no field of the envelope a call decodes into. *)
Definition unknown_to (op : Call) (key : string) : Prop :=
  match op with
  | CallGetBalance => json.byName balanceResponse.fields key = None
  | CallGetFaxCost _ _ => json.byName faxCostResponse.fields key = None
  | CallGetFaxStatus _ => json.byName faxStatusResponse.fields key = None
  | CallGetFaxHistory => json.byName faxHistoryResponse.fields key = None
  | CallUploadFile _ => json.byName fileUploadResponse.fields key = None
  | _ => True
  end.

(** A world whose answers do not depend on what happened before. *)
Definition forgetful (w : World) : Prop :=
  (forall h h' hc req, server w h hc req = server w h' hc req)
  /\ (forall h h' name, disk w h name = disk w h' name).

End Requests.

Module scenes.



(** A key with a line feed in it, which no URL may hold. *)
Definition broken_key : string := "k3y" ++ String (ascii_of_nat 10) EmptyString.

(** An envelope that reports "success" and holds, instead of a payload, the
    allowance under the name the service documents, which is not the name
    the struct of the balance asks for. *)
Definition bare_success : string :=
  "{" ++ sample.q "status" ++ ":" ++ sample.q "success" ++ ","
      ++ sample.q "subscription_credit_allowance" ++ ":3}".

Definition bare_success_members : list (string * JSON) :=
  [("status", JString "success"); ("subscription_credit_allowance", JNumber "3")].

(** The same envelope with an unknown key in front of the status. *)
Definition late_success : string :=
  "{" ++ sample.q "request_id" ++ ":7," ++ sample.q "status" ++ ":"
      ++ sample.q "success" ++ "}".

Definition late_success_members : list (string * JSON) :=
  [("request_id", JNumber "7"); ("status", JString "success")].

(** An envelope with the history twice. *)
Definition history_twice : string :=
  "{" ++ sample.q "status" ++ ":" ++ sample.q "success" ++ ","
      ++ sample.q "history" ++ ":[{" ++ sample.q "id" ++ ":1,"
      ++ sample.q "status" ++ ":" ++ sample.q "a" ++ "}],"
      ++ sample.q "history" ++ ":[{" ++ sample.q "recipient" ++ ":"
      ++ sample.q "x" ++ "}]}".

Definition first_item : JSON := JObject [("id", JNumber "1"); ("status", JString "a")].
Definition second_item : JSON := JObject [("recipient", JString "x")].

Definition history_twice_members : list (string * JSON) :=
  [ ("status", JString "success");
    ("history", JArray [first_item]);
    ("history", JArray [second_item]) ].


(** An envelope with the history behind a key the struct does not know. *)
Definition history_last : string :=
  "{" ++ sample.q "page" ++ ":1," ++ sample.q "status" ++ ":" ++ sample.q "success"
      ++ "," ++ sample.q "history" ++ ":[{" ++ sample.q "id" ++ ":9},{"
      ++ sample.q "id" ++ ":4}]}".

Definition history_last_members : list (string * JSON) :=
  [ ("page", JNumber "1");
    ("status", JString "success");
    ("history", JArray [JObject [("id", JNumber "9")]; JObject [("id", JNumber "4")]]) ].

(** An upload envelope with a document id below zero. *)
Definition negative_id : string :=
  "{" ++ sample.q "status" ++ ":" ++ sample.q "success" ++ ","
      ++ sample.q "document_id" ++ ":-1}".

Definition negative_id_members : list (string * JSON) :=
  [("status", JString "success"); ("document_id", JNumber "-1")].

Definition texts : list (string * JSON) :=
  [ (late_success, JObject late_success_members);
    (history_twice, JObject history_twice_members);
    (history_last, JObject history_last_members);
    (negative_id, JObject negative_id_members) ].

(** The runtime of the examples, reading these envelopes as well. *)
Definition runtime : Runtime :=
  {| Time := @Time sample.runtime;
     Time_zero := @Time_zero sample.runtime;
     parseStrictRFC3339 := @parseStrictRFC3339 sample.runtime;
     ParseFloat := @ParseFloat sample.runtime;
     foldName := @foldName sample.runtime;
     readValue := fun body =>
       if String.eqb body bare_success then inr (JObject bare_success_members)
       else match sample.lookup body texts with
            | Some v => inr v
            | None => @readValue sample.runtime body
            end;
     url_Parse := @url_Parse sample.runtime;
     uint_bits := @uint_bits sample.runtime |}.

End scenes.

(* ===================================================================== *)
(** * Facts about the library models *)
(* ===================================================================== *)

(** The models on a few inputs, with what the Go functions give there. *)
Example ReplaceAll_leftmost :
  strings.ReplaceAll "aaaa" "aa" "b" = "bb"
  /\ strings.ReplaceAll "$ke$key$" "$key$" "Z" = "$keZ"
  /\ strings.ReplaceAll rawBaseUrl "$key$" "k3y" = "https://fax.to/api/v2$action$?api_key=k3y".
Proof. repeat split; reflexivity. Qed.

Example Sprintf_verbs :
  fmt.Sprintf "/fax/%d/costs" [fmt.Int 7] = "/fax/7/costs"
  /\ fmt.Sprintf "/fax/%d/status" [fmt.Int (-3)] = "/fax/-3/status"
  /\ fmt.Sprintf "expected status 'success', got '%s'" [fmt.Str "error"]
     = "expected status 'success', got 'error'".
Proof. repeat split; reflexivity. Qed.

Example Encode_form :
  url.Encode [("fax_number", ["+49 30"]); ("document_id", ["12"])]
  = "document_id=12&fax_number=%2B49+30".
Proof. reflexivity. Qed.

Example ParseUint_digits :
  strconv.ParseUint "18446744073709551615" = Some 18446744073709551615
  /\ strconv.ParseUint "18446744073709551616" = None
  /\ strconv.ParseUint "-1" = None
  /\ strconv.ParseUint "1.0" = None.
Proof. repeat split; reflexivity. Qed.

Lemma append_empty (s : string) : s ++ "" = s.
Proof. induction s as [|c s IH]; simpl; [reflexivity | now rewrite IH]. Qed.

Lemma append_assoc (a b c : string) : (a ++ b) ++ c = a ++ (b ++ c).
Proof. induction a as [|x a IH]; simpl; [reflexivity | now rewrite IH]. Qed.

Lemma prefix_append (a b : string) : prefix a (a ++ b) = true.
Proof.
  induction a as [|x a IH]; simpl.
  - now destruct b.
  - destruct (ascii_dec x x) as [_|ne]; [exact IH | now elim ne].
Qed.

Lemma Contains_prefix (s sub : string) :
  prefix sub s = true -> strings.Contains s sub = true.
Proof. intros Hp. destruct s; cbn [strings.Contains]; rewrite Hp; reflexivity. Qed.

Lemma Contains_append_l (a s sub : string) :
  strings.Contains s sub = true -> strings.Contains (a ++ s) sub = true.
Proof.
  intros Hs. induction a as [|x a IH]; [exact Hs|].
  cbn [append strings.Contains]. rewrite IH. apply orb_true_r.
Qed.

(** Where the pattern does not occur, nothing is replaced. *)
Lemma replace_from_absent (old new s : string) :
  strings.Contains s old = false -> strings.replace_from O old new s = s.
Proof.
  induction s as [|c s IH]; [reflexivity|].
  cbn [strings.Contains strings.replace_from].
  intros Hc. apply orb_false_iff in Hc as [Hp Hs].
  rewrite Hp, (IH Hs). reflexivity.
Qed.

(** The decimal text of an integer determines the integer. *)
Lemma decimal_inj (a b : Z) : fmt.decimal a = fmt.decimal b -> a = b.
Proof.
  unfold fmt.decimal. intros E.
  assert (P : forall z, NilZero.int_of_string (NilZero.string_of_int (Z.to_int z))
                        = Some (Z.to_int z)).
  { intros z. apply NilZero.isi; destruct z as [|p|p]; simpl; try discriminate;
      intros [= E']; revert E'; apply DecimalPos.Unsigned.to_uint_nonnil. }
  pose proof (P a) as Pa. rewrite E, P in Pa. injection Pa as Pa.
  rewrite <- (DecimalZ.of_to a), <- (DecimalZ.of_to b). now f_equal.
Qed.

Lemma HttpStatusError_inj (a b : Z) : HttpStatusError a = HttpStatusError b -> a = b.
Proof.
  unfold HttpStatusError, fmt.Errorf. cbn [fmt.Sprintf]. intros [= E].
  rewrite !append_empty in E. now apply decimal_inj.
Qed.

Lemma RemoteStatusError_inj (a b : string) :
  RemoteStatusError a = RemoteStatusError b -> a = b.
Proof.
  unfold RemoteStatusError, fmt.Errorf. cbn [fmt.Sprintf]. intros [= E].
  revert b E. induction a as [|x a IH]; intros [|y b] E; simpl in E.
  - reflexivity.
  - injection E as E1 E2. destruct b; discriminate.
  - injection E as E1 E2. destruct a; discriminate.
  - injection E as E1 E2. subst y. f_equal. now apply IH.
Qed.

Lemma skipn_history (h l : list Event) : skipn (List.length h) (h ++ l) = l.
Proof. induction h as [|e h IH]; simpl; [reflexivity | exact IH]. Qed.

Lemma skipn_history0 (h : list Event) : skipn (List.length h) h = [].
Proof. rewrite <- (app_nil_r h) at 2. apply skipn_history. Qed.

(** Running a method: unfold the monad down to the answers of the world and
    of the library, which are then taken by cases. *)
Ltac run :=
  unfold call, returning, returning_error, performed,
    SendFax, GetBalance, GetFaxCost, GetFaxStatus, GetFaxHistory,
    UploadFile, GetFiles, DeleteFile, PostForm, defer, bind, self;
  cbn [fst snd].

Ltac effects :=
  unfold Do, Close, Decode, ioutil_ReadFile, ret, bind, record;
  cbn [fst snd history receiver].

Ltac events :=
  repeat rewrite <- app_assoc; cbn [app];
  rewrite ?skipn_history, ?skipn_history0.

Ltac tidy :=
  cbn [fst snd history receiver negb server disk with_body
       http.StatusCode http.RespBody] in *.

(** One answer of the world or of a library, by cases. *)
Ltac case_answer :=
  match goal with
  | |- context [url_Parse ?u] => destruct (url_Parse u) eqn:?
  | |- context [disk ?w ?h ?f] => destruct (disk w h f) eqn:?
  | |- context [server ?w ?h ?c ?r] => destruct (server w h c r) eqn:?
  | |- context [400 <=? ?c] => destruct (Z.leb_spec 400 c)
  | |- context [json.Decode ?i ?b ?z] => destruct (json.Decode i b z) eqn:?
  | |- context [String.eqb ?a ?b] => destruct (String.eqb_spec a b)
  end; tidy.

(** A method, run down to the events it performed and the value it
    returned, one goal for each way it can go. *)
Ltac run_all :=
  run; unfold http.NewRequest; effects; tidy; repeat case_answer; events.

(** Which event of a short list is the one at hand. *)
Ltac which_event :=
  cbn [In] in *;
  repeat match goal with
         | H : _ \/ _ |- _ => destruct H
         | H : False |- _ => contradiction
         | H : @eq Event _ _ |- _ => first [discriminate H | injection H as ? ? ?]
         | H : @eq (error + http.Response) _ _ |- _ =>
             first [discriminate H | injection H as ?]
         end;
  subst.

Ltac same_envelope :=
  repeat match goal with
         | H : inr _ = inr _ |- _ => injection H as H; try subst
         | H : inl _ = inr _ |- _ => discriminate H
         | H : inr _ = inl _ |- _ => discriminate H
         | H1 : ?x = inr _, H2 : ?x = _ |- _ => rewrite H1 in H2
         end.







(* ===================================================================== *)
(** * The requests and the decoder, step by step *)
(* ===================================================================== *)

(** A call whose URL parses (and whose file can be read) hands its request
    to the HTTP client and gets the answer of the world. *)
Lemma call_reaches_server `{rt : Runtime} (op : Call) (w : World) (st : State) :
  reaches_server op w st ->
  In (HttpDo (httpClient (receiver st)) (request_of op w st) (answer op w st))
    (performed (call op) w st).
Proof.
  intros [Hurl Hfile]. unfold answer, request_of, history_at_send.
  destruct op; cbn [raw_url action appended method_of header_of body_of] in *;
    try match type of Hfile with
        | exists _, _ => destruct Hfile as [content Hfile]
        end;
    run; unfold http.NewRequest; effects; tidy;
    rewrite ?Hfile; tidy; rewrite ?Hurl; tidy;
    unfold http.Header_Set;
    cbn [http.Method http.URL http.Header_ http.Body filter];
    repeat case_answer; events; cbn [In]; auto.
Qed.



Lemma members_into_app `{rt : Runtime} {T} (fs : json.fields T)
  (ms ms' : list (string * JSON)) (cur : T) (saved : option error) :
  json.members_into fs (ms ++ ms') cur saved
  = match json.members_into fs ms cur saved with
    | inl err => inl err
    | inr (x, saved') => json.members_into fs ms' x saved'
    end.
Proof.
  revert cur saved. induction ms as [|[key v] ms IH]; intros cur saved; [reflexivity|].
  cbn [app json.members_into]. destruct (json.byName fs key) as [store|]; [|apply IH].
  unfold json.bind. destruct (store v cur saved) as [err|[x s]]; [reflexivity|apply IH].
Qed.






















(* ===================================================================== *)
(** * The status code *)
(* ===================================================================== *)

(** What follows a response with a status code of 400 or more, for a call
    that received one. *)
Lemma status_error_of_trace `{rt : Runtime} (op : Call) (w : World) (st : State)
  (hc : http.Client) (req : http.Request) (resp : http.Response) :
  In (HttpDo hc req (inr resp)) (performed (call op) w st) ->
  400 <= http.StatusCode resp ->
  fst (call op w st) = (zero_value op, Some (HttpStatusError (http.StatusCode resp)))
  /\ (forall code, HttpStatusError code = HttpStatusError (http.StatusCode resp) ->
                   code = http.StatusCode resp)
  /\ (forall r, ~ In (ReadBody r) (performed (call op) w st))
  /\ (forall f, fst (call op (with_body f w) st) = fst (call op w st)).
Proof.
  intros Hin Hcode. split; [|split; [|split]].
  - revert Hin. destruct op; run_all; intros Hin; which_event;
      solve [reflexivity | lia].
  - intros code. apply HttpStatusError_inj.
  - intros r Hr. revert Hin Hr.
    destruct op; run_all; intros Hin Hr; which_event; lia.
  - intros f. revert Hin. destruct op; run_all; intros Hin; which_event;
      solve [reflexivity | lia | congruence].
Qed.

(** C1. Whatever the method, when its request goes out (the URL parses
    and, for [UploadFile], the file can be read) and the server answers with
    a status code of 400 or more, the method returns its zero value with the
    error "expected status < 400, got <code>" (the specification's
    HttpStatusError, from which the code can be read back); the body of the
    response is not read; and the outcome is the same whatever body the
    server sends. *)
Theorem http_status_error `{rt : Runtime} (op : Call) (w : World) (st : State)
  (resp : http.Response) :
  reaches_server op w st ->
  answer op w st = inr resp ->
  400 <= http.StatusCode resp ->
  fst (call op w st) = (zero_value op, Some (HttpStatusError (http.StatusCode resp)))
  /\ (forall code, HttpStatusError code = HttpStatusError (http.StatusCode resp) ->
                   code = http.StatusCode resp)
  /\ (forall r, ~ In (ReadBody r) (performed (call op) w st))
  /\ (forall f, fst (call op (with_body f w) st) = fst (call op w st)).
Proof.
  intros Hreach Hanswer Hcode.
  apply (status_error_of_trace op w st (httpClient (receiver st)) (request_of op w st));
    [|exact Hcode].
  rewrite <- Hanswer. apply call_reaches_server, Hreach.
Qed.

Lemma http_status_error_witness :
  Forall
    (fun op =>
       fst (call (rt := sample.runtime) op
              (sample.answering 500 sample.not_json) (sample.fresh "k3y"))
       = (zero_value op, Some (errorString "expected status < 400, got 500")))
    [ CallSendFax "+4930123" 12; CallGetBalance; CallGetFaxCost "+4930123" 7;
      CallGetFaxStatus 5; CallGetFaxHistory; CallUploadFile "empty.pdf";
      CallGetFiles; CallDeleteFile 7 ].
Proof.
  repeat apply Forall_cons; try apply Forall_nil;
    (match goal with
     | |- fst (call ?op ?w ?st) = _ =>
         refine (proj1 (http_status_error (rt := sample.runtime) op w st
                          {| http.StatusCode := 500; http.RespBody := sample.not_json |}
                          _ _ _))
     end;
     [ split; [vm_compute; reflexivity | first [exact I | exists ""; reflexivity]]
     | vm_compute; reflexivity
     | vm_compute; discriminate ]).
Defined.

(** C8. [SendFax] and [DeleteFile], the two methods that return an error
    only: when the response received has a status code below 400, they
    return a nil error; the body is not read, and the outcome is the same
    whatever body the server sends. *)
Theorem void_methods_ignore_body `{rt : Runtime} (op : Call) (w : World) (st : State)
  (hc : http.Client) (req : http.Request) (resp : http.Response) :
  (exists number fileId, op = CallSendFax number fileId)
  \/ (exists fileId, op = CallDeleteFile fileId) ->
  In (HttpDo hc req (inr resp)) (performed (call op) w st) ->
  http.StatusCode resp < 400 ->
  fst (call op w st) = (Nothing, None)
  /\ (forall r, ~ In (ReadBody r) (performed (call op) w st))
  /\ (forall f, fst (call op (with_body f w) st) = (Nothing, None)).
Proof.
  intros Hop Hin Hcode.
  assert (Hrun : fst (call op w st) = (Nothing, None)
                 /\ forall f, fst (call op (with_body f w) st) = (Nothing, None)).
  { destruct Hop as [(number & fileId & ->) | (fileId & ->)];
      (split; [|intros f]); revert Hin; run_all; intros Hin; which_event;
      solve [reflexivity | lia]. }
  destruct Hrun as [Hw Hf]. split; [exact Hw | split; [|exact Hf]].
  intros r Hr. revert Hin Hr.
  destruct Hop as [(number & fileId & ->) | (fileId & ->)];
    run_all; intros Hin Hr; which_event.
Qed.

Lemma void_methods_ignore_body_witness :
  fst (call (rt := sample.runtime) (CallDeleteFile 7)
         (sample.answering 302 sample.not_json) (sample.fresh "k3y"))
  = (Nothing, None).
Proof.
  refine (proj1 (void_methods_ignore_body (rt := sample.runtime) (CallDeleteFile 7)
                   (sample.answering 302 sample.not_json) (sample.fresh "k3y")
                   {| http.Timeout := 10000000000 |}
                   {| http.Method := "DELETE";
                      http.URL := "https://fax.to/api/v2/files/7?api_key=k3y";
                      http.Header_ := [("Accept", ["application/json"])];
                      http.Body := None |}
                   {| http.StatusCode := 302; http.RespBody := sample.not_json |}
                   _ _ _)).
  - right. exists 7. reflexivity.
  - vm_compute. left. reflexivity.
  - reflexivity.
Defined.

(* ===================================================================== *)
(** * The receiver *)
(* ===================================================================== *)

Lemma call_preserves_receiver `{rt : Runtime} (op : Call) (w : World) (st : State) :
  receiver (snd (call op w st)) = receiver st.
Proof. destruct op; run_all; reflexivity. Qed.

(** C9. No method writes to its receiver: after a call, whatever its
    outcome, and after any sequence of calls, the base URL and the HTTP
    client of the receiver are what they were before. *)
Theorem client_never_mutated `{rt : Runtime} (w : World) (st : State) :
  (forall op,
      baseUrl (receiver (snd (call op w st))) = baseUrl (receiver st)
      /\ httpClient (receiver (snd (call op w st))) = httpClient (receiver st))
  /\ (forall ops, receiver (snd (call_all ops w st)) = receiver st).
Proof.
  split.
  - intros op. now rewrite call_preserves_receiver.
  - intros ops. revert st. induction ops as [|op ops IH]; intros st.
    + reflexivity.
    + cbn [call_all]. unfold bind, ret. cbn [fst snd].
      rewrite IH. apply call_preserves_receiver.
Qed.

(* ===================================================================== *)
(** * The status field of the envelope *)
(* ===================================================================== *)

(** What follows a response with a status code below 400, for a call that
    received one. *)
Lemma success_field_of_trace `{rt : Runtime} (op : Call) (w : World) (st : State)
  (hc : http.Client) (req : http.Request) (resp : http.Response) :
  In (HttpDo hc req (inr resp)) (performed (call op) w st) ->
  http.StatusCode resp < 400 ->
  match op with
  | CallGetBalance =>
      forall b,
        json.Decode balanceResponse.store (http.RespBody resp) balanceResponse.zero = inr b ->
        balanceResponse.Status b <> "success" ->
        fst (call op w st)
        = (zero_value op, Some (RemoteStatusError (balanceResponse.Status b)))
  | CallGetFaxHistory =>
      forall fh,
        json.Decode faxHistoryResponse.store (http.RespBody resp) faxHistoryResponse.zero
        = inr fh ->
        faxHistoryResponse.Status fh <> "success" ->
        fst (call op w st)
        = (zero_value op, Some (RemoteStatusError (faxHistoryResponse.Status fh)))
  | CallUploadFile _ =>
      forall fu,
        json.Decode fileUploadResponse.store (http.RespBody resp) fileUploadResponse.zero
        = inr fu ->
        fileUploadResponse.Status fu <> "success" ->
        fst (call op w st)
        = (zero_value op, Some (RemoteStatusError (fileUploadResponse.Status fu)))
  | CallGetFaxCost _ _ =>
      forall cost,
        json.Decode faxCostResponse.store (http.RespBody resp) faxCostResponse.zero
        = inr cost ->
        fst (call op w st) = (Float (faxCostResponse.Cost cost), None)
  | CallGetFaxStatus _ =>
      forall fs,
        json.Decode faxStatusResponse.store (http.RespBody resp) faxStatusResponse.zero
        = inr fs ->
        fst (call op w st) = (Text (faxStatusResponse.Status fs), None)
  | CallGetFiles =>
      forall files,
        json.Decode (json.into_slice "[]faxto.File" File.zero File.store)
          (http.RespBody resp) (make_slice []) = inr files ->
        fst (call op w st) = (Files files, None)
  | CallSendFax _ _ | CallDeleteFile _ =>
      fst (call op w st) = (Nothing, None)
  end
  /\ (forall status status',
         RemoteStatusError status = RemoteStatusError status' -> status = status').
Proof.
  intros Hin Hcode. split; [|exact RemoteStatusError_inj].
  destruct op; revert Hin; run_all; intros Hin; which_event; intros;
    same_envelope; solve [reflexivity | lia | congruence].
Qed.

(** C2. When the request of a method goes out, the server answers with a
    status code below 400 and the body has been decoded: [GetBalance],
    [GetFaxHistory] and [UploadFile] return their zero value with the error
    "expected status 'success', got '<status>'" (the specification's
    RemoteStatusError, from which the status can be read back) when the
    status field of the envelope is not "success"; [GetFaxCost],
    [GetFaxStatus] and [GetFiles] return what was decoded with a nil error,
    whatever the status field holds; [SendFax] and [DeleteFile] return a nil
    error without decoding. *)
Theorem success_field_check `{rt : Runtime} (op : Call) (w : World) (st : State)
  (resp : http.Response) :
  reaches_server op w st ->
  answer op w st = inr resp ->
  http.StatusCode resp < 400 ->
  match op with
  | CallGetBalance =>
      forall b,
        json.Decode balanceResponse.store (http.RespBody resp) balanceResponse.zero = inr b ->
        balanceResponse.Status b <> "success" ->
        fst (call op w st)
        = (zero_value op, Some (RemoteStatusError (balanceResponse.Status b)))
  | CallGetFaxHistory =>
      forall fh,
        json.Decode faxHistoryResponse.store (http.RespBody resp) faxHistoryResponse.zero
        = inr fh ->
        faxHistoryResponse.Status fh <> "success" ->
        fst (call op w st)
        = (zero_value op, Some (RemoteStatusError (faxHistoryResponse.Status fh)))
  | CallUploadFile _ =>
      forall fu,
        json.Decode fileUploadResponse.store (http.RespBody resp) fileUploadResponse.zero
        = inr fu ->
        fileUploadResponse.Status fu <> "success" ->
        fst (call op w st)
        = (zero_value op, Some (RemoteStatusError (fileUploadResponse.Status fu)))
  | CallGetFaxCost _ _ =>
      forall cost,
        json.Decode faxCostResponse.store (http.RespBody resp) faxCostResponse.zero
        = inr cost ->
        fst (call op w st) = (Float (faxCostResponse.Cost cost), None)
  | CallGetFaxStatus _ =>
      forall fs,
        json.Decode faxStatusResponse.store (http.RespBody resp) faxStatusResponse.zero
        = inr fs ->
        fst (call op w st) = (Text (faxStatusResponse.Status fs), None)
  | CallGetFiles =>
      forall files,
        json.Decode (json.into_slice "[]faxto.File" File.zero File.store)
          (http.RespBody resp) (make_slice []) = inr files ->
        fst (call op w st) = (Files files, None)
  | CallSendFax _ _ | CallDeleteFile _ =>
      fst (call op w st) = (Nothing, None)
  end
  /\ (forall status status',
         RemoteStatusError status = RemoteStatusError status' -> status = status').
Proof.
  intros Hreach Hanswer Hcode.
  apply (success_field_of_trace op w st (httpClient (receiver st)) (request_of op w st));
    [|exact Hcode].
  rewrite <- Hanswer. apply call_reaches_server, Hreach.
Qed.

Lemma success_field_check_witness :
  (fst (call (rt := sample.runtime) CallGetBalance
          (sample.answering 200 sample.status_error) (sample.fresh "k3y"))
   = (Float PrimFloat.zero, Some (errorString "expected status 'success', got 'error'"))
   /\ fst (call (rt := sample.runtime) CallGetFaxHistory
             (sample.answering 200 sample.status_error) (sample.fresh "k3y"))
      = (History nil_slice, Some (errorString "expected status 'success', got 'error'"))
   /\ fst (call (rt := sample.runtime) (CallUploadFile "empty.pdf")
             (sample.answering 200 sample.status_error) (sample.fresh "k3y"))
      = (Ident 0, Some (errorString "expected status 'success', got 'error'")))
  /\ (fst (call (rt := sample.runtime) (CallGetFaxCost "+4930123" 7)
             (sample.answering 200 sample.cost_error) (sample.fresh "k3y"))
      = (Float 0.25%float, None)
      /\ fst (call (rt := sample.runtime) (CallGetFaxStatus 5)
                (sample.answering 200 sample.status_error) (sample.fresh "k3y"))
         = (Text "error", None)
      /\ fst (call (rt := sample.runtime) (CallSendFax "+4930123" 12)
                (sample.answering 200 sample.status_error) (sample.fresh "k3y"))
         = (Nothing, None)).
Proof.
  assert (Hcheck : forall op body,
             reaches_server (rt := sample.runtime) op
               (sample.answering 200 body) (sample.fresh "k3y") ->
             _) by
    (intros op body Hreach;
     exact (proj1 (success_field_check (rt := sample.runtime) op
                     (sample.answering 200 body) (sample.fresh "k3y")
                     {| http.StatusCode := 200; http.RespBody := body |}
                     Hreach eq_refl eq_refl))).
  split; [split; [|split] | split; [|split]].
  - refine (Hcheck CallGetBalance sample.status_error _
              {| balanceResponse.Status := "error";
                 balanceResponse.Balance := PrimFloat.zero;
                 balanceResponse.SubscriptionCreditAllowance := PrimFloat.zero |} _ _);
      [split; [vm_compute; reflexivity | exact I] | vm_compute; reflexivity
      | cbn; discriminate].
  - refine (Hcheck CallGetFaxHistory sample.status_error _
              {| faxHistoryResponse.Status := "error";
                 faxHistoryResponse.History := nil_slice |} _ _);
      [split; [vm_compute; reflexivity | exact I] | vm_compute; reflexivity
      | cbn; discriminate].
  - refine (Hcheck (CallUploadFile "empty.pdf") sample.status_error _
              {| fileUploadResponse.Status := "error";
                 fileUploadResponse.DocumentId := 0;
                 fileUploadResponse.TotalPages := 0 |} _ _);
      [split; [vm_compute; reflexivity | exists ""; reflexivity]
      | vm_compute; reflexivity | cbn; discriminate].
  - refine (Hcheck (CallGetFaxCost "+4930123" 7) sample.cost_error _
              {| faxCostResponse.Status := "error";
                 faxCostResponse.Cost := 0.25%float |} _);
      [split; [vm_compute; reflexivity | exact I] | vm_compute; reflexivity].
  - refine (Hcheck (CallGetFaxStatus 5) sample.status_error _
              {| faxStatusResponse.Status := "error";
                 faxStatusResponse.Message := "";
                 faxStatusResponse.Balance := PrimFloat.zero |} _);
      [split; [vm_compute; reflexivity | exact I] | vm_compute; reflexivity].
  - refine (Hcheck (CallSendFax "+4930123" 12) sample.status_error _);
      split; [vm_compute; reflexivity | exact I].
Defined.

(* ===================================================================== *)
(** * What each method returns *)
(* ===================================================================== *)






(** C6. [UploadFile], when the file can be read and the URL parses: the
    one request it sends is a POST without headers whose body is the content
    of the file, byte for byte and whatever its length (empty for an empty
    file); and when the response has a status code below 400 and decodes
    into an envelope with the status "success", it returns the document id
    of the envelope with a nil error. *)
Theorem UploadFile_sends_file_content `{rt : Runtime} (w : World) (st : State)
  (file content : string) :
  disk w (history st) file = inr content ->
  url_Parse (strings.ReplaceAll (baseUrl (receiver st)) "$action$" "/files") = None ->
  let req :=
    {| http.Method := http.MethodPost;
       http.URL := strings.ReplaceAll (baseUrl (receiver st)) "$action$" "/files";
       http.Header_ := [];
       http.Body := Some content |} in
  let answer :=
    server w (history st ++ [ReadFile file (inr content)]) (httpClient (receiver st)) req in
  (exists rest,
      performed (UploadFile file) w st
      = ReadFile file (inr content)
          :: HttpDo (httpClient (receiver st)) req answer :: rest)
  /\ requests (performed (UploadFile file) w st) = [req]
  /\ (forall resp fu,
         answer = inr resp ->
         http.StatusCode resp < 400 ->
         json.Decode fileUploadResponse.store (http.RespBody resp) fileUploadResponse.zero
         = inr fu ->
         fileUploadResponse.Status fu = "success" ->
         fst (UploadFile file w st) = (fileUploadResponse.DocumentId fu, None)).
Proof.
  intros Hfile Hurl req answer.
  assert (Hrun : UploadFile file w st
                 = (fst (UploadFile file w st),
                    {| receiver := receiver st;
                       history := history st
                                  ++ ReadFile file (inr content)
                                  :: HttpDo (httpClient (receiver st)) req answer
                                  :: match answer with
                                     | inl _ => []
                                     | inr resp =>
                                         if 400 <=? http.StatusCode resp
                                         then [CloseBody resp]
                                         else [ReadBody resp; CloseBody resp]
                                     end |})).
  { subst req answer. run. unfold http.NewRequest. effects. tidy.
    rewrite Hfile. tidy. rewrite Hurl. tidy.
    repeat case_answer; events; reflexivity. }
  split; [|split].
  - eexists. unfold performed. rewrite Hrun. cbn [snd history].
    rewrite skipn_history. reflexivity.
  - unfold performed. rewrite Hrun. cbn [snd history].
    rewrite skipn_history. unfold requests. cbn [flat_map app].
    destruct answer as [err|resp]; [reflexivity|].
    destruct (400 <=? http.StatusCode resp); reflexivity.
  - intros resp fu Hanswer Hcode Hfu Hs. subst req answer. revert Hanswer.
    run. unfold http.NewRequest. effects. tidy.
    rewrite Hfile. tidy. rewrite Hurl. tidy. intros Hanswer. rewrite Hanswer. tidy.
    repeat case_answer; same_envelope; try lia; congruence.
Qed.

Lemma UploadFile_sends_file_content_witness :
  requests (performed (UploadFile (rt := sample.runtime) "empty.pdf")
              (sample.answering 200 sample.upload_success) (sample.fresh "k3y"))
  = [ {| http.Method := "POST";
         http.URL := "https://fax.to/api/v2/files?api_key=k3y";
         http.Header_ := [];
         http.Body := Some "" |} ]
  /\ fst (UploadFile (rt := sample.runtime) "empty.pdf"
            (sample.answering 200 sample.upload_success) (sample.fresh "k3y"))
     = (42, None).
Proof.
  pose proof (UploadFile_sends_file_content (rt := sample.runtime)
                (sample.answering 200 sample.upload_success) (sample.fresh "k3y")
                "empty.pdf" "" eq_refl eq_refl) as (_ & Hreq & Hid).
  split.
  - exact Hreq.
  - refine (Hid {| http.StatusCode := 200; http.RespBody := sample.upload_success |}
                {| fileUploadResponse.Status := "success";
                   fileUploadResponse.DocumentId := 42;
                   fileUploadResponse.TotalPages := 0 |} _ _ _ _).
    + reflexivity.
    + reflexivity.
    + vm_compute. reflexivity.
    + reflexivity.
Defined.



(* ===================================================================== *)
(** * The request URL *)
(* ===================================================================== *)

Lemma NewClient_baseUrl (apiKey : string) :
  baseUrl (NewClient apiKey) = "https://fax.to/api/v2$action$?api_key=" ++ apiKey.
Proof.
  unfold NewClient, rawBaseUrl, strings.ReplaceAll. cbn.
  rewrite append_empty. reflexivity.
Qed.

Lemma ReplaceAll_action (apiKey a : string) :
  strings.Contains apiKey "$action$" = false ->
  strings.ReplaceAll (baseUrl (NewClient apiKey)) "$action$" a
  = "https://fax.to/api/v2" ++ a ++ "?api_key=" ++ apiKey.
Proof.
  intros Hk. rewrite NewClient_baseUrl. unfold strings.ReplaceAll.
  cbn. rewrite (replace_from_absent _ _ _ Hk). reflexivity.
Qed.

Lemma target_holds_key `{rt : Runtime} (op : Call) (apiKey : string) :
  strings.Contains (target op apiKey) apiKey = true.
Proof.
  unfold target. do 3 apply Contains_append_l.
  apply Contains_prefix, prefix_append.
Qed.

(** C3, as amended. A client made by [NewClient] from a key that does not
    hold the text "$action$": every request a method sends goes to
    "https://fax.to/api/v2" ++ action ++ "?api_key=" ++ key, the action
    being the segment of the method, followed for [GetFaxCost] by
    "&fax_number=" ++ number; that URL holds the key as it was given; and
    the method does send one request to it when the URL parses and, for
    [UploadFile], the file can be read. *)
Theorem request_url `{rt : Runtime} (op : Call) (w : World) (st : State) (apiKey : string) :
  receiver st = NewClient apiKey ->
  strings.Contains apiKey "$action$" = false ->
  (forall u, In u (urls (performed (call op) w st)) -> u = target op apiKey)
  /\ strings.Contains (target op apiKey) apiKey = true
  /\ (url_Parse (target op apiKey) = None ->
      (forall file, op = CallUploadFile file ->
                    exists content, disk w (history st) file = inr content) ->
      urls (performed (call op) w st) = [target op apiKey]).
Proof.
  intros Hc Hk.
  assert (Hurl : forall a x,
             strings.ReplaceAll (baseUrl (receiver st)) "$action$" a ++ x
             = "https://fax.to/api/v2" ++ a ++ "?api_key=" ++ apiKey ++ x).
  { intros a x. rewrite Hc, (ReplaceAll_action _ _ Hk), !append_assoc. reflexivity. }
  assert (Hurl0 : forall a,
             strings.ReplaceAll (baseUrl (receiver st)) "$action$" a
             = "https://fax.to/api/v2" ++ a ++ "?api_key=" ++ apiKey ++ "").
  { intros a. rewrite <- Hurl, append_empty. reflexivity. }
  split; [|split].
  - intros u. destruct op; unfold urls, requests, target; run_all;
      cbn [flat_map map app In http.URL http.Header_Set action appended];
      intros Hu; which_event; rewrite ?Hurl, ?Hurl0; reflexivity.
  - apply target_holds_key.
  - intros Hparse Hfile. revert Hparse.
    destruct op; unfold urls, requests, target;
      cbn [action appended]; rewrite <- ?Hurl, ?append_empty; intros Hparse;
      run_all; try congruence; try reflexivity.
    destruct (Hfile file eq_refl) as [content Hcontent]. congruence.
Qed.


Lemma request_url_witness :
  urls (performed (call (rt := sample.runtime) (CallGetFaxCost "+4930123" 7))
          (sample.answering 200 sample.cost_error) (sample.fresh "k3y"))
  = ["https://fax.to/api/v2/fax/7/costs?api_key=k3y&fax_number=+4930123"].
Proof.
  refine (proj2 (proj2 (request_url (rt := sample.runtime) (CallGetFaxCost "+4930123" 7)
                          (sample.answering 200 sample.cost_error) (sample.fresh "k3y")
                          "k3y" _ _)) _ _).
  - reflexivity.
  - reflexivity.
  - reflexivity.
  - intros file [=].
Defined.

(** C3, as stated, fails in two ways.  A key that holds the action
    placeholder is rewritten by the substitution of the action, so the URL
    does not hold the key: with the key "$action$", [GetBalance] asks for
    ".../balance?api_key=/balance".  And [GetFaxCost] puts the fax number
    after the key, not between the action and the key. *)
Lemma request_url_counterexample :
  urls (performed (call (rt := sample.runtime) CallGetBalance)
          (sample.answering 200 sample.balance_success) (sample.fresh "$action$"))
  = ["https://fax.to/api/v2/balance?api_key=/balance"]
  /\ strings.Contains "https://fax.to/api/v2/balance?api_key=/balance" "$action$" = false
  /\ urls (performed (call (rt := sample.runtime) (CallGetFaxCost "+4930123" 7))
             (sample.answering 200 sample.cost_error) (sample.fresh "k3y"))
     <> ["https://fax.to/api/v2/fax/7/costs?fax_number=+4930123?api_key=k3y"].
Proof.
  split; [|split].
  - vm_compute. reflexivity.
  - vm_compute. reflexivity.
  - vm_compute. discriminate.
Qed.

(* ===================================================================== *)
(** * The sequence [GetFiles] returns *)
(* ===================================================================== *)




(* ===================================================================== *)
(** * Failures, and what a call does around them *)
(* ===================================================================== *)

(** As [which_event], for every kind of event. *)
Ltac which_event1 :=
  cbn [In] in *;
  repeat match goal with
         | H : _ \/ _ |- _ => destruct H
         | H : False |- _ => contradiction
         | H : @eq Event _ _ |- _ =>
             first [ discriminate H
                   | injection H as ? ? ?
                   | injection H as ? ?
                   | injection H as ? ]
         | H : @eq (error + _) _ _ |- _ =>
             first [discriminate H | injection H as ?]
         end;
  subst.



(** X2. No method calls the HTTP client twice: whatever the world answers
    (an error, a status code of 400 or more, a body that does not decode),
    the package hands over one request at most and does not retry.  What
    the HTTP client does with a request, such as following a redirect, is
    not a call of the package. *)
Theorem at_most_one_request `{rt : Runtime} (op : Call) (w : World) (st : State) :
  (List.length (requests (performed (call op) w st)) <= 1)%nat.
Proof.
  unfold requests. destruct op; run_all; simpl; lia.
Qed.

(** X3. An error never comes with a value: whenever a call returns an
    error, the value next to it is the zero value of the method. *)
Theorem error_with_zero_value `{rt : Runtime} (op : Call) (w : World) (st : State)
  (err : error) :
  snd (fst (call op w st)) = Some err ->
  fst (fst (call op w st)) = zero_value op.
Proof.
  destruct op; run_all; cbn [fst snd]; intros Herr;
    solve [reflexivity | discriminate].
Qed.

Lemma error_with_zero_value_witness :
  fst (fst (call (rt := sample.runtime) (CallUploadFile "missing.pdf")
              (sample.answering 200 sample.upload_success) (sample.fresh "k3y")))
  = Ident 0.
Proof.
  refine (error_with_zero_value (rt := sample.runtime) (CallUploadFile "missing.pdf")
            (sample.answering 200 sample.upload_success) (sample.fresh "k3y")
            (os_PathError "open" "missing.pdf" "no such file or directory") _).
  reflexivity.
Defined.

(** X4. A body is read only by the six methods that decode, only from the
    response the call received, and only when its status code is below
    400. *)
Theorem body_read_after_success `{rt : Runtime} (op : Call) (w : World) (st : State)
  (r : http.Response) :
  In (ReadBody r) (performed (call op) w st) ->
  http.StatusCode r < 400
  /\ zero_value op <> Nothing
  /\ exists hc req, In (HttpDo hc req (inr r)) (performed (call op) w st).
Proof.
  intros Hr. revert Hr.
  destruct op; run_all; intros Hr; which_event1;
    (split; [lia | split; [discriminate | do 2 eexists; cbn [In]; eauto]]).
Qed.

Lemma body_read_after_success_witness :
  http.StatusCode {| http.StatusCode := 200; http.RespBody := sample.files_three |} < 400
  /\ zero_value (rt := sample.runtime) CallGetFiles <> Nothing.
Proof.
  pose proof (body_read_after_success (rt := sample.runtime) CallGetFiles
                (sample.answering 200 sample.files_three) (sample.fresh "k3y")
                {| http.StatusCode := 200; http.RespBody := sample.files_three |})
    as Hread.
  assert (Hin : In (ReadBody {| http.StatusCode := 200;
                                http.RespBody := sample.files_three |})
                  (performed (call (rt := sample.runtime) CallGetFiles)
                     (sample.answering 200 sample.files_three) (sample.fresh "k3y"))).
  { vm_compute. right. left. reflexivity. }
  destruct (Hread Hin) as (Hcode & Hop & _). split; assumption.
Defined.





(* ===================================================================== *)
(** * What is sent *)
(* ===================================================================== *)

(** X7. The request of each method: its method constant, the URL built
    from the base URL of the receiver, and one header at most, which is
    [Content-Type] for [SendFax] (the form) and for [GetBalance], nothing
    for [UploadFile], and [Accept: application/json] for the other five; a
    request carries a body exactly when it is a POST. *)
Theorem request_shape `{rt : Runtime} (op : Call) (w : World) (st : State)
  (req : http.Request) :
  In req (requests (performed (call op) w st)) ->
  http.Method req = method_of op
  /\ http.URL req = raw_url op (receiver st)
  /\ http.Header_ req = header_of op
  /\ (http.Body req = None <-> method_of op <> http.MethodPost).
Proof.
  unfold requests.
  destruct op; run_all; cbn [flat_map app In]; intros Hin;
    repeat match goal with
           | H : _ \/ _ |- _ => destruct H
           | H : False |- _ => contradiction
           end;
    subst req;
    cbn [http.Method http.URL http.Header_ http.Body http.Header_Set
         method_of header_of raw_url action appended filter];
    (split; [reflexivity | split; [reflexivity | split; [reflexivity|]]]);
    (split; [intros Hb | intros Hm]);
    solve [reflexivity | discriminate | exfalso; apply Hm; reflexivity].
Qed.

Lemma request_shape_witness :
  http.Method
    {| http.Method := "DELETE";
       http.URL := "https://fax.to/api/v2/files/7?api_key=k3y";
       http.Header_ := [("Accept", ["application/json"])];
       http.Body := None |}
  = method_of (CallDeleteFile 7).
Proof.
  refine (proj1 (request_shape (rt := sample.runtime) (CallDeleteFile 7)
                   (sample.answering 200 sample.not_json) (sample.fresh "k3y")
                   {| http.Method := "DELETE";
                      http.URL := "https://fax.to/api/v2/files/7?api_key=k3y";
                      http.Header_ := [("Accept", ["application/json"])];
                      http.Body := None |} _)).
  vm_compute. left. reflexivity.
Defined.

Lemma QueryEscape_digits (d : Decimal.uint) :
  url.QueryEscape (NilEmpty.string_of_uint d) = NilEmpty.string_of_uint d.
Proof. induction d; cbn [NilEmpty.string_of_uint url.QueryEscape]; try rewrite IHd; reflexivity. Qed.

Lemma QueryEscape_decimal (n : Z) : url.QueryEscape (fmt.decimal n) = fmt.decimal n.
Proof.
  unfold fmt.decimal, NilZero.string_of_int, NilZero.string_of_uint.
  destruct (Z.to_int n) as [d|d]; destruct d;
    cbn [url.QueryEscape NilEmpty.string_of_uint];
    try rewrite QueryEscape_digits; reflexivity.
Qed.

Lemma Encode_fax_form (number : string) (fileId : Z) :
  url.Encode [("fax_number", [number]);
              ("document_id", [fmt.Sprintf "%d" [fmt.Int fileId]])]
  = "document_id=" ++ fmt.decimal fileId ++ "&fax_number=" ++ url.QueryEscape number.
Proof.
  unfold url.Encode, url.sorted. cbn [fold_right url.insert fst snd].
  change (("fax_number" <=? "document_id")%string) with false.
  cbn [flat_map map app fst snd String.concat fmt.Sprintf].
  change (url.QueryEscape "document_id") with "document_id".
  change (url.QueryEscape "fax_number") with "fax_number".
  rewrite append_empty, QueryEscape_decimal, !append_assoc.
  reflexivity.
Qed.

(** X8. The form [SendFax] posts is "document_id=<id>&fax_number=<number>":
    the two fields in the order of their keys, the id in decimal digits and
    the number escaped for a query, whatever the number holds. *)
Theorem SendFax_form `{rt : Runtime} (number : string) (fileId : uint64)
  (w : World) (st : State) (req : http.Request) :
  In req (requests (performed (SendFax number fileId) w st)) ->
  http.Body req
  = Some ("document_id=" ++ fmt.decimal fileId
          ++ "&fax_number=" ++ url.QueryEscape number).
Proof.
  unfold requests. run_all; cbn [flat_map app In]; intros Hin;
    repeat match goal with
           | H : _ \/ _ |- _ => destruct H
           | H : False |- _ => contradiction
           end;
    subst req; cbn [http.Body http.Header_Set]; f_equal;
    apply Encode_fax_form.
Qed.

Lemma SendFax_form_witness :
  http.Body
    {| http.Method := "POST";
       http.URL := "https://fax.to/api/v2/fax?api_key=k3y";
       http.Header_ := [("Content-Type", ["application/x-www-form-urlencoded"])];
       http.Body := Some "document_id=12&fax_number=%2B49+30+123" |}
  = Some ("document_id=" ++ fmt.decimal 12
          ++ "&fax_number=" ++ url.QueryEscape "+49 30 123").
Proof.
  refine (SendFax_form (rt := sample.runtime) "+49 30 123" 12
            (sample.answering 200 sample.not_json) (sample.fresh "k3y")
            {| http.Method := "POST";
               http.URL := "https://fax.to/api/v2/fax?api_key=k3y";
               http.Header_ := [("Content-Type", ["application/x-www-form-urlencoded"])];
               http.Body := Some "document_id=12&fax_number=%2B49+30+123" |} _).
  vm_compute. left. reflexivity.
Defined.

(* ===================================================================== *)
(** * What is not sent *)
(* ===================================================================== *)

(** X9. When the URL of a call does not parse, nothing is sent; and the
    method returns its zero value with the error of the parser ([UploadFile]
    once it has read the file). *)
Theorem unparsable_url_sends_nothing `{rt : Runtime} (op : Call) (w : World)
  (st : State) (err : error) :
  url_Parse (raw_url op (receiver st)) = Some err ->
  requests (performed (call op) w st) = []
  /\ ((forall file, op = CallUploadFile file ->
                    exists content, disk w (history st) file = inr content) ->
      fst (call op w st) = (zero_value op, Some err)).
Proof.
  intros Hurl. unfold requests.
  destruct op; cbn [raw_url action appended] in Hurl;
    (split; [|intros Hfile]);
    try (destruct (Hfile file eq_refl) as [content Hcontent]);
    run; unfold http.NewRequest; effects; tidy;
    rewrite ?Hcontent; tidy; rewrite ?Hurl; tidy;
    repeat case_answer; events; solve [reflexivity | discriminate].
Qed.

Lemma unparsable_url_sends_nothing_witness :
  requests (performed (call (rt := sample.runtime) CallGetBalance)
              (sample.answering 200 sample.balance_success)
              (sample.fresh scenes.broken_key))
  = [].
Proof.
  refine (proj1 (unparsable_url_sends_nothing (rt := sample.runtime) CallGetBalance
                   (sample.answering 200 sample.balance_success)
                   (sample.fresh scenes.broken_key)
                   (url_Error "parse"
                      (raw_url CallGetBalance (NewClient scenes.broken_key))
                      "net/url: invalid control character in URL") _)).
  vm_compute. reflexivity.
Defined.



(* ===================================================================== *)
(** * Calls one after the other *)
(* ===================================================================== *)

(** What a call returns depends on its receiver and on the answers of the
    world, not on the calls made before. *)
Lemma call_forgetful `{rt : Runtime} (op : Call) (w : World) (st st' : State) :
  forgetful w ->
  receiver st = receiver st' ->
  fst (call op w st) = fst (call op w st').
Proof.
  intros [Hs Hd] Hr. destruct st as [c h], st' as [c' h'].
  cbn [receiver] in Hr. subst c'.
  pose (srv := server w []). pose (dsk := disk w []).
  assert (Hs' : forall h hc req, server w h hc req = srv hc req)
    by (intros; apply Hs).
  assert (Hd' : forall h name, disk w h name = dsk name)
    by (intros; apply Hd).
  clearbody srv dsk.
  destruct op; run; unfold http.NewRequest; effects; tidy;
    repeat (rewrite ?Hs', ?Hd';
            first [ case_answer
                  | match goal with
                    | |- context [srv ?hc ?req] => destruct (srv hc req) eqn:?
                    | |- context [dsk ?name] => destruct (dsk name) eqn:?
                    end; tidy ]);
    reflexivity.
Qed.

(** X11. The client keeps nothing between calls: on a world whose answers
    do not depend on the past, a sequence of calls on one client returns,
    call by call, what each call returns when it is made alone. *)
Theorem calls_do_not_interfere `{rt : Runtime} (w : World) (ops : list Call)
  (st : State) :
  forgetful w ->
  fst (call_all ops w st) = map (fun op => fst (call op w st)) ops.
Proof.
  intros Hw. revert st. induction ops as [|op ops IH]; intros st.
  - reflexivity.
  - cbn [call_all map]. unfold bind, ret. cbn [fst snd]. f_equal.
    rewrite IH. apply map_ext. intros op'.
    apply call_forgetful; [exact Hw | apply call_preserves_receiver].
Qed.

Lemma calls_do_not_interfere_witness :
  fst (call_all (rt := sample.runtime)
         [CallGetFaxStatus 5; CallDeleteFile 7; CallGetFaxStatus 5]
         (sample.answering 200 sample.status_error) (sample.fresh "k3y"))
  = [ (Text "error", None); (Nothing, None); (Text "error", None) ].
Proof.
  refine (calls_do_not_interfere (rt := sample.runtime)
            (sample.answering 200 sample.status_error)
            [CallGetFaxStatus 5; CallDeleteFile 7; CallGetFaxStatus 5]
            (sample.fresh "k3y") _).
  split; reflexivity.
Defined.

(* ===================================================================== *)
(** * Bodies off the expected shape *)
(* ===================================================================== *)

Lemma members_unknown `{rt : Runtime} {T} (fs : json.fields T)
  (ms : list (string * JSON)) (cur : T) (saved : option error) :
  Forall (fun m => json.byName fs (fst m) = None) ms ->
  json.members_into fs ms cur saved = inr (cur, saved).
Proof.
  induction 1 as [|[key v] ms Hkey _ IH]; [reflexivity|].
  cbn [json.members_into]. cbn [fst] in Hkey. rewrite Hkey. exact IH.
Qed.

Lemma byName_exact `{rt : Runtime} {T} (fs : json.fields T) (key : string)
  (f : string * (JSON -> T -> json.D T)) :
  find (fun f => String.eqb key (fst f)) fs = Some f ->
  json.byName fs key = Some (snd f).
Proof. intros Hf. unfold json.byName. rewrite Hf. reflexivity. Qed.

(** Decoding the members before ++ ("status", s) :: after, the keys of
    [before] and [after] unknown. *)
Ltac status_only Hbody Hbefore Hafter :=
  unfold json.Decode; rewrite Hbody;
  unfold balanceResponse.store, faxCostResponse.store, faxHistoryResponse.store,
    fileUploadResponse.store, json.into_struct;
  cbv beta iota;
  rewrite members_into_app, (members_unknown _ _ _ _ Hbefore);
  cbn [json.members_into]; erewrite byName_exact by reflexivity;
  unfold json.bind, json.ret; cbn [snd json.into_string];
  unfold json.bind, json.ret;
  rewrite (members_unknown _ _ _ _ Hafter); reflexivity.

(** X12. An envelope that reports "success" and holds no payload field,
    only keys the struct does not know, before the status or after it, is
    taken without an error: the four methods that return a payload return
    its zero value (0, or the nil sequence) with a nil error. *)
Theorem payload_missing_gives_zero `{rt : Runtime} (op : Call) (w : World)
  (st : State) (hc : http.Client) (req : http.Request) (resp : http.Response)
  (before after : list (string * JSON)) :
  returns_payload op = true ->
  In (HttpDo hc req (inr resp)) (performed (call op) w st) ->
  http.StatusCode resp < 400 ->
  readValue (http.RespBody resp)
  = inr (JObject (before ++ ("status", JString "success") :: after)) ->
  Forall (fun m => unknown_to op (fst m)) before ->
  Forall (fun m => unknown_to op (fst m)) after ->
  fst (call op w st) = (zero_value op, None).
Proof.
  intros Hop Hin Hcode Hbody Hbefore Hafter. revert Hin.
  destruct op; try discriminate Hop; cbn [unknown_to] in Hbefore, Hafter.
  - assert (Hd : json.Decode balanceResponse.store (http.RespBody resp) balanceResponse.zero
                 = inr {| balanceResponse.Status := "success";
                          balanceResponse.Balance := PrimFloat.zero;
                          balanceResponse.SubscriptionCreditAllowance := PrimFloat.zero |})
      by status_only Hbody Hbefore Hafter.
    run_all; intros Hin; which_event; same_envelope; try lia; try congruence;
      cbn in *; congruence.
  - assert (Hd : json.Decode faxCostResponse.store (http.RespBody resp) faxCostResponse.zero
                 = inr {| faxCostResponse.Status := "success";
                          faxCostResponse.Cost := PrimFloat.zero |})
      by status_only Hbody Hbefore Hafter.
    run_all; intros Hin; which_event; same_envelope; try lia; try congruence;
      cbn in *; congruence.
  - assert (Hd : json.Decode faxHistoryResponse.store (http.RespBody resp)
                   faxHistoryResponse.zero
                 = inr {| faxHistoryResponse.Status := "success";
                          faxHistoryResponse.History := nil_slice |})
      by status_only Hbody Hbefore Hafter.
    run_all; intros Hin; which_event; same_envelope; try lia; try congruence;
      cbn in *; congruence.
  - assert (Hd : json.Decode fileUploadResponse.store (http.RespBody resp)
                   fileUploadResponse.zero
                 = inr {| fileUploadResponse.Status := "success";
                          fileUploadResponse.DocumentId := 0;
                          fileUploadResponse.TotalPages := 0 |})
      by status_only Hbody Hbefore Hafter.
    run_all; intros Hin; which_event; same_envelope; try lia; try congruence;
      cbn in *; congruence.
Qed.

Lemma payload_missing_gives_zero_witness :
  fst (call (rt := scenes.runtime) CallGetBalance
         (sample.answering 200 scenes.bare_success) (sample.fresh "k3y"))
  = (Float PrimFloat.zero, None)
  /\ fst (call (rt := scenes.runtime) CallGetFaxHistory
            (sample.answering 200 scenes.late_success) (sample.fresh "k3y"))
     = (History nil_slice, None).
Proof.
  split.
  - refine (payload_missing_gives_zero (rt := scenes.runtime) CallGetBalance
              (sample.answering 200 scenes.bare_success) (sample.fresh "k3y")
              {| http.Timeout := 10000000000 |}
              {| http.Method := "GET";
                 http.URL := "https://fax.to/api/v2/balance?api_key=k3y";
                 http.Header_ := [("Content-Type", ["application/json"])];
                 http.Body := None |}
              {| http.StatusCode := 200; http.RespBody := scenes.bare_success |}
              [] [("subscription_credit_allowance", JNumber "3")] _ _ _ _ _ _).
    + reflexivity.
    + vm_compute. left. reflexivity.
    + reflexivity.
    + vm_compute. reflexivity.
    + constructor.
    + constructor; [vm_compute; reflexivity | constructor].
  - refine (payload_missing_gives_zero (rt := scenes.runtime) CallGetFaxHistory
              (sample.answering 200 scenes.late_success) (sample.fresh "k3y")
              {| http.Timeout := 10000000000 |}
              {| http.Method := "GET";
                 http.URL := "https://fax.to/api/v2/fax-history?api_key=k3y";
                 http.Header_ := [("Accept", ["application/json"])];
                 http.Body := None |}
              {| http.StatusCode := 200; http.RespBody := scenes.late_success |}
              [("request_id", JNumber "7")] [] _ _ _ _ _ _).
    + reflexivity.
    + vm_compute. left. reflexivity.
    + reflexivity.
    + vm_compute. reflexivity.
    + constructor; [vm_compute; reflexivity | constructor].
    + constructor.
Defined.



(* ===================================================================== *)
(** * The HTTP client and the numbers *)
(* ===================================================================== *)

(** X14. Every HTTP call of a method goes through the HTTP client of its
    receiver, so that a client made by [NewClient] makes all its calls under
    the timeout of ten seconds. *)
Theorem calls_use_the_timeout_client `{rt : Runtime} (op : Call) (w : World)
  (st : State) (apiKey : string) (hc : http.Client) (req : http.Request)
  (r : error + http.Response) :
  receiver st = NewClient apiKey ->
  In (HttpDo hc req r) (performed (call op) w st) ->
  hc = httpClient (receiver st)
  /\ http.Timeout hc = 10 * time.Second.
Proof.
  intros Hc Hin.
  assert (Hhc : hc = httpClient (receiver st)).
  { revert Hin. destruct op; run_all; intros Hin; which_event1; reflexivity. }
  split; [exact Hhc|]. rewrite Hhc, Hc. reflexivity.
Qed.

Lemma calls_use_the_timeout_client_witness :
  {| http.Timeout := 10000000000 |} = httpClient (receiver (sample.fresh "k3y"))
  /\ http.Timeout {| http.Timeout := 10000000000 |} = 10 * time.Second.
Proof.
  refine (calls_use_the_timeout_client (rt := sample.runtime) CallGetFiles
            (sample.answering 200 sample.files_three) (sample.fresh "k3y") "k3y"
            {| http.Timeout := 10000000000 |}
            {| http.Method := "GET";
               http.URL := "https://fax.to/api/v2/files?api_key=k3y";
               http.Header_ := [("Accept", ["application/json"])];
               http.Body := None |}
            (inr {| http.StatusCode := 200; http.RespBody := sample.files_three |})
            _ _).
  - reflexivity.
  - vm_compute. left. reflexivity.
Defined.















